(** * SmartNZ travel chatbot: the LLM orchestration chains

    A shallow embedding of the intent-extraction and itinerary-generation
    chains ([intent.chain.ts], [itinerary.chain.ts]), of the schema validator
    they call ([schema.validator.ts]), of the orchestrator ([ai.service.ts])
    and of the provider layer ([base-provider.ts], [anthropic.provider.ts],
    [openai.provider.ts]), followed by the properties of the specification
    that are stated about them.

    Conventions.
    - A JavaScript string is the list of its UTF-16 code units.
    - A JavaScript number is stored as the rational it denotes, or NaN, or
      one of the two infinities; the sign of zero is outside the model, and
      a numeric literal stands for its decimal value.  [num_add], [num_mul]
      and [num_div] compute without rounding, as the code does on counts,
      minutes and tokens.  On other values the code rounds every result to
      the nearest double; the model does so where a stated result depends
      on it: the total of the costs is accumulated in IEEE-754 doubles
      ([Double]).
    - [async] functions are run to completion in program order; an effectful
      function is a state transformer over [World] that either returns a
      value or throws a JavaScript [Error].
    - Calls to [this.logger] have no influence on control flow or on any value
      and are left out. *)

From Stdlib Require Import List ZArith NArith QArith Qround Bool Lia.
From Stdlib Require Import String Ascii DecimalString Permutation Sorted.
From Stdlib Require Import Setoid Morphisms Lqa.
From Stdlib Require Floats.
Import ListNotations.

Set Implicit Arguments.

(* ================================================================== *)
(** ** JavaScript numbers *)

Inductive number : Type :=
| NaN
| PosInfinity
| NegInfinity
| Fin (q : Q).

Definition num (z : Z) : number := Fin (inject_Z z).

(** The sign of a finite value, used by multiplication and division. *)
Definition Qsign (q : Q) : comparison := (q ?= 0)%Q.

Definition signed_infinity (positive : bool) : number :=
  if positive then PosInfinity else NegInfinity.

Definition num_add (a b : number) : number :=
  match a, b with
  | NaN, _ | _, NaN => NaN
  | PosInfinity, NegInfinity | NegInfinity, PosInfinity => NaN
  | PosInfinity, _ | _, PosInfinity => PosInfinity
  | NegInfinity, _ | _, NegInfinity => NegInfinity
  | Fin x, Fin y => Fin (x + y)
  end.

Definition num_neg (a : number) : number :=
  match a with
  | NaN => NaN
  | PosInfinity => NegInfinity
  | NegInfinity => PosInfinity
  | Fin x => Fin (- x)
  end.

Definition num_sub (a b : number) : number := num_add a (num_neg b).

(** [Infinity * 0] is NaN; otherwise an infinity keeps the product of the signs. *)
Definition num_mul (a b : number) : number :=
  match a, b with
  | NaN, _ | _, NaN => NaN
  | Fin x, Fin y => Fin (x * y)
  | PosInfinity, PosInfinity | NegInfinity, NegInfinity => PosInfinity
  | PosInfinity, NegInfinity | NegInfinity, PosInfinity => NegInfinity
  | PosInfinity, Fin y | Fin y, PosInfinity =>
      match Qsign y with Eq => NaN | Gt => PosInfinity | Lt => NegInfinity end
  | NegInfinity, Fin y | Fin y, NegInfinity =>
      match Qsign y with Eq => NaN | Gt => NegInfinity | Lt => PosInfinity end
  end.

(** [x / 0] is NaN when [x] is zero and an infinity of the sign of [x]
    otherwise (the divisors of this program are array lengths, so the zero
    is the positive one); [Infinity / Infinity] is NaN. *)
Definition num_div (a b : number) : number :=
  match a, b with
  | NaN, _ | _, NaN => NaN
  | Fin x, Fin y =>
      match Qsign y with
      | Eq => match Qsign x with
              | Eq => NaN | Gt => PosInfinity | Lt => NegInfinity
              end
      | _ => Fin (x / y)
      end
  | Fin _, _ => Fin 0
  | PosInfinity, Fin y =>
      match Qsign y with Lt => NegInfinity | _ => PosInfinity end
  | NegInfinity, Fin y =>
      match Qsign y with Lt => PosInfinity | _ => NegInfinity end
  | _, _ => NaN
  end.

(** The relational operators: every comparison with NaN is false. *)
Definition num_ltb (a b : number) : bool :=
  match a, b with
  | NaN, _ | _, NaN => false
  | _, NegInfinity => false
  | NegInfinity, _ => true
  | PosInfinity, _ => false
  | _, PosInfinity => true
  | Fin x, Fin y => match (x ?= y)%Q with Lt => true | _ => false end
  end.

Definition num_eqb (a b : number) : bool :=
  match a, b with
  | PosInfinity, PosInfinity | NegInfinity, NegInfinity => true
  | Fin x, Fin y => Qeq_bool x y
  | _, _ => false
  end.

Definition num_gtb (a b : number) : bool := num_ltb b a.
Definition num_leb (a b : number) : bool := num_ltb a b || num_eqb a b.
Definition num_geb (a b : number) : bool := num_leb b a.

Definition is_NaN (a : number) : bool :=
  match a with NaN => true | _ => false end.

(** ToBoolean on a number: zero and NaN are falsy. *)
Definition truthy_number (a : number) : bool :=
  match a with
  | NaN => false
  | Fin x => negb (Qeq_bool x 0)
  | _ => true
  end.

(** [Math.round]: the integer nearest to the argument, a tie going towards
    plus infinity. *)
Definition Math_round (a : number) : number :=
  match a with
  | Fin x => num (Qfloor (x + (1 # 2)))
  | other => other
  end.

(** [Math.max] and [Math.min] of two arguments: NaN when either is NaN. *)
Definition Math_max (a b : number) : number :=
  if is_NaN a || is_NaN b then NaN else if num_ltb a b then b else a.

Definition Math_min (a b : number) : number :=
  if is_NaN a || is_NaN b then NaN else if num_ltb b a then b else a.

(** [Math.pow(x, 2)]. *)
Definition Math_pow2 (x : number) : number := num_mul x x.

(** Equality of numbers as values: the same rational, whatever the fraction
    that denotes it.  (NaN is related to itself: this is identity of the
    stored value, not the [===] operator.) *)
Definition num_eq (a b : number) : Prop :=
  match a, b with
  | NaN, NaN | PosInfinity, PosInfinity | NegInfinity, NegInfinity => True
  | Fin x, Fin y => (x == y)%Q
  | _, _ => False
  end.

(* ================================================================== *)
(** ** IEEE-754 doubles *)

Module Double.

(** The double nearest to a rational, ties to even: the value a numeric
    literal of that value has once [JSON.parse] has read it.  The quotient
    of the numerator by the denominator is rounded once; a magnitude too
    large for a double gives an infinity. *)
Definition nearest (q : Q) : PrimFloat.float :=
  let quotient negative n :=
    FloatOps.SF2Prim
      (SpecFloat.SFdiv FloatOps.prec FloatOps.emax
         (SpecFloat.S754_finite negative n 0)
         (SpecFloat.S754_finite false (Qden q) 0)) in
  match Qnum q with
  | Z0 => PrimFloat.zero
  | Zpos n => quotient false n
  | Zneg n => quotient true n
  end.

Definition of_number (x : number) : PrimFloat.float :=
  match x with
  | NaN => PrimFloat.nan
  | PosInfinity => PrimFloat.infinity
  | NegInfinity => PrimFloat.neg_infinity
  | Fin q => nearest q
  end.

(** The number a double denotes, exactly: [m * 2^e] with its sign. *)
Definition to_number (f : PrimFloat.float) : number :=
  match FloatOps.Prim2SF f with
  | SpecFloat.S754_zero _ => num 0
  | SpecFloat.S754_infinity negative => signed_infinity (negb negative)
  | SpecFloat.S754_nan => NaN
  | SpecFloat.S754_finite negative m e =>
      let magnitude :=
        match e with
        | Z0 => inject_Z (Zpos m)
        | Zpos p => inject_Z (Zpos m * 2 ^ Zpos p)
        | Zneg p => Zpos m # (2 ^ p)
        end in
      Fin (if negative then - magnitude else magnitude)
  end.

(** [x + y] on two numbers of the program. *)
Definition add (total : PrimFloat.float) (x : number) : PrimFloat.float :=
  PrimFloat.add total (of_number x).

End Double.

(* ================================================================== *)
(** ** JavaScript strings *)

Definition code_unit : Type := N.
Definition jsstring : Type := list code_unit.

(** A string literal of the source made of ASCII characters. *)
Definition str (s : string) : jsstring :=
  map N_of_ascii (list_ascii_of_string s).

Fixpoint jsstring_eqb (s t : jsstring) : bool :=
  match s, t with
  | [], [] => true
  | c :: s', d :: t' => N.eqb c d && jsstring_eqb s' t'
  | _, _ => false
  end.

(** ToBoolean on a string: only the empty string is falsy. *)
Definition truthy_string (s : jsstring) : bool :=
  match s with [] => false | _ => true end.

(** [s.split(sep)] for a separator of one code unit. *)
Fixpoint split (sep : code_unit) (s : jsstring) : list jsstring :=
  match s with
  | [] => [[]]
  | c :: s' =>
      if N.eqb c sep then [] :: split sep s'
      else match split sep s' with
           | [] => [[c]]
           | w :: ws => (c :: w) :: ws
           end
  end.

(** [parts.join(sep)]. *)
Fixpoint join (sep : jsstring) (parts : list jsstring) : jsstring :=
  match parts with
  | [] => []
  | [p] => p
  | p :: ps => p ++ sep ++ join sep ps
  end.

Definition colon : code_unit := 58%N.

(** [table[key]] on an object literal or a [Map] keyed by strings. *)
Fixpoint assoc {T} (key : jsstring) (table : list (jsstring * T)) : option T :=
  match table with
  | [] => None
  | (k, t) :: rest => if jsstring_eqb k key then Some t else assoc key rest
  end.

(* ================================================================== *)
(** ** Arrays *)

Section ArraySort.
Variable A : Type.
Variable comparefn : A -> A -> number.

(** [Array.prototype.sort(comparefn)].  The sort is stable (ECMAScript
    2019); [x] is placed after [y] exactly when [comparefn(x, y) > 0].
    For a comparator that orders the elements consistently, which
    [key(x) - key(y)] does when no key is NaN, every stable sort gives the
    list computed here, by insertion from the right.  When some comparison
    is NaN the comparator is not consistent and ECMAScript leaves the order
    to the engine: the list computed here is then a permutation of the
    input, as the engine's is, but it need not be the engine's order of
    the elements; nothing below is stated of that order, except on the
    day 10:00, soon, 09:00, which V8 leaves as it is (the three activities
    are one run of its insertion sort, no comparison being negative). *)
Definition sorts_after (x y : A) : bool := num_gtb (comparefn x y) (num 0).

Fixpoint sort_insert (x : A) (sorted : list A) : list A :=
  match sorted with
  | [] => [x]
  | y :: rest => if sorts_after x y then y :: sort_insert x rest
                 else x :: sorted
  end.

Definition Array_sort (l : list A) : list A := fold_right sort_insert [] l.
End ArraySort.

(* ================================================================== *)
(** ** JSON values *)

(** What [JSON.parse] produces.  An object is the list of its properties;
    a property is read by its first entry. *)
#[warnings="-register-all"] Inductive json : Type :=
| JNull
| JBool (b : bool)
| JNumber (q : Q)
| JString (s : jsstring)
| JArray (items : list json)
| JObject (props : list (jsstring * json)).

Definition jsobject : Type := list (jsstring * json).

(** [obj[key]]; [None] is [undefined]. *)
Fixpoint get (key : jsstring) (obj : jsobject) : option json :=
  match obj with
  | [] => None
  | (k, v) :: rest => if jsstring_eqb k key then Some v else get key rest
  end.

(** ToBoolean on the result of a property read. *)
Definition truthy (v : option json) : bool :=
  match v with
  | None | Some JNull => false
  | Some (JBool b) => b
  | Some (JNumber q) => negb (Qeq_bool q 0)
  | Some (JString s) => truthy_string s
  | Some (JArray _) | Some (JObject _) => true
  end.

(* ================================================================== *)
(** ** Data model ([types.ts], [common/types], the DTO files) *)

Inductive Locale : Type := en | zh.

Record BilingualText : Type := {
  bt_en : jsstring;
  bt_zh : jsstring
}.

Inductive MessageRole : Type := SYSTEM | USER | ASSISTANT | FUNCTION.

Record ChatMessage : Type := {
  role : MessageRole;
  content : jsstring;
  msg_name : option jsstring
}.

Inductive LLMProvider : Type := OPENAI | ANTHROPIC | LOCAL.

Record LLMOptions : Type := {
  model : jsstring;
  temperature : option number;
  maxTokens : option number;
  topP : option number;
  frequencyPenalty : option number;
  presencePenalty : option number;
  stop : option (list jsstring);
  stream : option bool
}.

Inductive IntentType : Type :=
| CREATE_ITINERARY
| COMPARE_PRICES
| RECOMMEND_RESTAURANT
| RECOMMEND_RENTAL
| CHECK_WEATHER
| CHECK_TRAFFIC
| GENERAL_QUERY
| GREETING
| HELP.

Record IntentResult : Type := {
  type : IntentType;
  confidence : number;
  locale : Locale;
  parameters : jsobject;
  detectedLanguage : option Locale;
  metadata : option jsobject
}.

Record Money : Type := {
  amount : number;
  currency : jsstring
}.

Record Coordinates : Type := {
  lat : number;
  lng : number
}.

Record Location : Type := {
  loc_name : jsstring;
  address : option jsstring;
  coordinates : option Coordinates
}.

Record ItineraryActivity : Type := {
  time : jsstring;
  act_name : BilingualText;
  description : BilingualText;
  location : Location;
  duration : number;
  cost : option Money;
  category : jsstring
}.

Record Meals : Type := {
  breakfast : option jsstring;
  lunch : option jsstring;
  dinner : option jsstring
}.

Record ItineraryDay : Type := {
  day : number;
  date : jsstring;
  activities : list ItineraryActivity;
  meals : Meals;
  accommodation : option jsstring;
  notes : option BilingualText
}.

Record GeneratedItinerary : Type := {
  title : BilingualText;
  summary : BilingualText;
  destination : jsstring;
  startDate : jsstring;
  endDate : jsstring;
  days : list ItineraryDay;
  totalCost : option Money;
  recommendations : list BilingualText
}.

(** The request DTOs ([ai.dto.ts], [itinerary.dto.ts]). *)
Inductive ContextRole : Type := ctx_system | ctx_user | ctx_assistant.

Record ChatMessageDto : Type := {
  dto_role : ContextRole;
  dto_content : jsstring;
  dto_name : option jsstring
}.

Record ExtractIntentDto : Type := {
  query : jsstring;
  query_locale : option Locale;
  context : option (list ChatMessageDto)
}.

Inductive Budget : Type := low | medium | high.
Inductive Pace : Type := relaxed | moderate | fast.

Record ItineraryPreferences : Type := {
  interests : option (list jsstring);
  budget : option Budget;
  pace : option Pace;
  pref_accommodation : option jsstring;
  transportation : option jsstring
}.

Record GenerateItineraryDto : Type := {
  req_destination : jsstring;
  req_startDate : jsstring;
  req_endDate : jsstring;
  req_days : number;
  travelers : option number;
  preferences : option ItineraryPreferences;
  req_locale : option Locale;
  specificRequests : option jsstring
}.

(** An [Error] object, as far as the program looks at it. *)
Record Error : Type := { message : jsstring }.

(** One entry of [ValidationResult.errors]. *)
Record ValidationIssue : Type := {
  path : jsstring;
  issue_message : jsstring
}.

(* ================================================================== *)
(** ** The host: ECMAScript built-ins and the libraries outside the repository *)

Class Host : Type := {
  (** [new Date(s).getTime()]: NaN for an invalid date. *)
  Date_getTime : jsstring -> number;
  (** [Number(s)]. *)
  Number_of : jsstring -> number;
  (** Conversion of a number inside a template literal. *)
  String_of_number : number -> jsstring;
  (** [JSON.parse]: the parsed value, or the message of the SyntaxError. *)
  JSON_parse : jsstring -> Error + json;
  (** [JSON.stringify] on the error list of a validation result. *)
  JSON_stringify : list ValidationIssue -> jsstring;
  (** The issues zod reports ([ZodError.errors]) when a schema rejects an
      input, each with its path segments still apart. *)
  zod_issues : forall T : Type, (option json -> option T) -> json ->
               list (list jsstring * jsstring);
  (** The message of the TypeError raised by reading [content] of [undefined]. *)
  undefined_content_message : jsstring
}.

(* ================================================================== *)
(** ** Effects: state passing with exceptions *)

Record UsageStats : Type := {
  usage_totalTokens : number;
  usage_promptTokens : number;
  usage_completionTokens : number;
  usage_totalCost : number;
  usage_requestCount : number
}.

(** What the program can change: the record of the calls made to
    [AiService.generateJSON] (each with the messages it was given), and the
    [usageStats] of the two provider instances. *)
Record World : Type := {
  generateJSON_calls : list (list ChatMessage);
  anthropic_usage : UsageStats;
  openai_usage : UsageStats
}.

Inductive Completion (A : Type) : Type :=
| Return (a : A)
| Throw (e : Error).
Arguments Return {A} a.
Arguments Throw {A} e.

Definition Eff (A : Type) : Type := World -> Completion A * World.

Definition ret {A} (a : A) : Eff A := fun w => (Return a, w).
Definition throw {A} (e : Error) : Eff A := fun w => (Throw e, w).

Definition bind {A B} (c : Eff A) (k : A -> Eff B) : Eff B :=
  fun w => match c w with
           | (Return a, w') => k a w'
           | (Throw e, w') => (Throw e, w')
           end.

(** [try { body } catch (error) { handler }]. *)
Definition try_catch {A} (body : Eff A) (handler : Error -> Eff A) : Eff A :=
  fun w => match body w with
           | (Return a, w') => (Return a, w')
           | (Throw e, w') => handler e w'
           end.

Definition modify (f : World -> World) : Eff unit := fun w => (Return tt, f w).

Declare Scope eff_scope.
Delimit Scope eff_scope with eff.
Notation "x <- c ;; k" := (bind c (fun x => k))
  (at level 61, c at next level, right associativity) : eff_scope.
Notation "c ;;; k" := (bind c (fun _ => k))
  (at level 61, right associativity) : eff_scope.

(** Option values stand for [T | undefined]; [a ?? b] and the parsers below
    chain them. *)
Definition nullish {A} (a : option A) (b : A) : A :=
  match a with Some x => x | None => b end.

Notation "'let?' x := c 'in' k" :=
  (match c with Some x => k | None => None end)
  (at level 10, x pattern, c at level 200, k at level 200).

(* ================================================================== *)
(** ** Schema validator ([schema.validator.ts]) *)

Module Zod.

(** The zod combinators the schemas use.  A schema parses the value of a
    property, [None] standing for an absent one ([undefined]); it answers
    the canonical value or fails. *)
Definition schema (T : Type) : Type := option json -> option T.

Local Abbreviation jsnumber := number.

Definition string : schema jsstring :=
  fun v => match v with Some (JString s) => Some s | _ => None end.

Definition number : schema jsnumber :=
  fun v => match v with Some (JNumber q) => Some (Fin q) | _ => None end.

Definition optional {T} (inner : schema T) : schema (option T) :=
  fun v => match v with
           | None => Some None
           | Some _ => option_map Some (inner v)
           end.

(** [z.enum([...])], each accepted string given with the value of the
    enumeration it denotes. *)
Definition enum {T} (values : list (jsstring * T)) : schema T :=
  fun v => match v with Some (JString s) => assoc s values | _ => None end.

Definition min (bound : Q) (inner : schema jsnumber) : schema jsnumber :=
  fun v => let? n := inner v in if num_geb n (Fin bound) then Some n else None.

Definition max (bound : Q) (inner : schema jsnumber) : schema jsnumber :=
  fun v => let? n := inner v in if num_leb n (Fin bound) then Some n else None.

Fixpoint all {T} (inner : schema T) (items : list json) : option (list T) :=
  match items with
  | [] => Some []
  | j :: rest =>
      let? x := inner (Some j) in
      let? xs := all inner rest in
      Some (x :: xs)
  end.

Definition array {T} (inner : schema T) : schema (list T) :=
  fun v => match v with Some (JArray items) => all inner items | _ => None end.

(** [z.object({...})] accepts an object (not an array, not null) and hands
    its properties to the parser of the shape; unknown keys are dropped
    because the result is rebuilt from the shape. *)
Definition object {T} (shape : jsobject -> option T) : schema T :=
  fun v => match v with Some (JObject props) => shape props | _ => None end.

(** [z.record(z.any())]: any object, its properties kept as they are. *)
Definition record_any : schema jsobject :=
  fun v => match v with Some (JObject props) => Some props | _ => None end.

End Zod.

Inductive ValidationResult (T : Type) : Type :=
| Valid (data : T)
| Invalid (errors : list ValidationIssue).
Arguments Valid {T} data.
Arguments Invalid {T} errors.

Definition valid {T} (r : ValidationResult T) : bool :=
  match r with Valid _ => true | Invalid _ => false end.

Module SchemaValidator.
Section SchemaValidator.
Context {host : Host}.

(** [validate(data, schema)].  The schemas below raise nothing but a
    ZodError, so the last branch of the source is never taken. *)
Definition validate {T} (data : json) (schema : Zod.schema T) : ValidationResult T :=
  match schema (Some data) with
  | Some validatedData => Valid validatedData
  | None =>
      Invalid (map (fun err => {| path := join (str ".") (fst err);
                                  issue_message := snd err |})
                   (zod_issues schema data))
  end.

End SchemaValidator.
End SchemaValidator.

Definition bilingualTextSchema : Zod.schema BilingualText :=
  Zod.object (fun o =>
    let? e := Zod.string (get (str "en") o) in
    let? z := Zod.string (get (str "zh") o) in
    Some {| bt_en := e; bt_zh := z |}).

(** The value of [intentSchema.parse]: the four keys of the shape.  The chain
    adds [detectedLanguage] afterwards; [metadata] is not in the shape. *)
Definition intentSchema : Zod.schema IntentResult :=
  Zod.object (fun o =>
    let? t := Zod.enum [ (str "create_itinerary", CREATE_ITINERARY);
                         (str "compare_prices", COMPARE_PRICES);
                         (str "recommend_restaurant", RECOMMEND_RESTAURANT);
                         (str "recommend_rental", RECOMMEND_RENTAL);
                         (str "check_weather", CHECK_WEATHER);
                         (str "check_traffic", CHECK_TRAFFIC);
                         (str "general_query", GENERAL_QUERY);
                         (str "greeting", GREETING);
                         (str "help", HELP) ]
                       (get (str "type") o) in
    let? c := Zod.max 1 (Zod.min 0 Zod.number) (get (str "confidence") o) in
    let? p := Zod.record_any (get (str "parameters") o) in
    let? l := Zod.enum [ (str "en", en); (str "zh", zh) ] (get (str "locale") o) in
    Some {| type := t; confidence := c; locale := l; parameters := p;
            detectedLanguage := None; metadata := None |}).

Definition moneySchema : Zod.schema Money :=
  Zod.object (fun o =>
    let? a := Zod.number (get (str "amount") o) in
    let? c := Zod.string (get (str "currency") o) in
    Some {| amount := a; currency := c |}).

Definition coordinatesSchema : Zod.schema Coordinates :=
  Zod.object (fun o =>
    let? x := Zod.number (get (str "lat") o) in
    let? y := Zod.number (get (str "lng") o) in
    Some {| lat := x; lng := y |}).

Definition locationSchema : Zod.schema Location :=
  Zod.object (fun o =>
    let? n := Zod.string (get (str "name") o) in
    let? a := Zod.optional Zod.string (get (str "address") o) in
    let? c := Zod.optional coordinatesSchema (get (str "coordinates") o) in
    Some {| loc_name := n; address := a; coordinates := c |}).

Definition itineraryActivitySchema : Zod.schema ItineraryActivity :=
  Zod.object (fun o =>
    let? t := Zod.string (get (str "time") o) in
    let? n := bilingualTextSchema (get (str "name") o) in
    let? d := bilingualTextSchema (get (str "description") o) in
    let? l := locationSchema (get (str "location") o) in
    let? u := Zod.number (get (str "duration") o) in
    let? c := Zod.optional moneySchema (get (str "cost") o) in
    let? g := Zod.string (get (str "category") o) in
    Some {| time := t; act_name := n; description := d; location := l;
            duration := u; cost := c; category := g |}).

Definition mealsSchema : Zod.schema Meals :=
  Zod.object (fun o =>
    let? b := Zod.optional Zod.string (get (str "breakfast") o) in
    let? l := Zod.optional Zod.string (get (str "lunch") o) in
    let? d := Zod.optional Zod.string (get (str "dinner") o) in
    Some {| breakfast := b; lunch := l; dinner := d |}).

Definition itineraryDaySchema : Zod.schema ItineraryDay :=
  Zod.object (fun o =>
    let? n := Zod.number (get (str "day") o) in
    let? d := Zod.string (get (str "date") o) in
    let? a := Zod.array itineraryActivitySchema (get (str "activities") o) in
    let? m := mealsSchema (get (str "meals") o) in
    let? c := Zod.optional Zod.string (get (str "accommodation") o) in
    let? t := Zod.optional bilingualTextSchema (get (str "notes") o) in
    Some {| day := n; date := d; activities := a; meals := m;
            accommodation := c; notes := t |}).

Definition itinerarySchema : Zod.schema GeneratedItinerary :=
  Zod.object (fun o =>
    let? t := bilingualTextSchema (get (str "title") o) in
    let? s := bilingualTextSchema (get (str "summary") o) in
    let? d := Zod.string (get (str "destination") o) in
    let? b := Zod.string (get (str "startDate") o) in
    let? e := Zod.string (get (str "endDate") o) in
    let? l := Zod.array itineraryDaySchema (get (str "days") o) in
    let? c := Zod.optional moneySchema (get (str "totalCost") o) in
    let? r := Zod.array bilingualTextSchema (get (str "recommendations") o) in
    Some {| title := t; summary := s; destination := d; startDate := b;
            endDate := e; days := l; totalCost := c; recommendations := r |}).

(* ================================================================== *)
(** ** Providers ([base-provider.ts], [anthropic.provider.ts], [openai.provider.ts]) *)

(** The part of [ILLMProvider] the chains reach. *)
Record ILLMProvider : Type := {
  provider_name : jsstring;
  provider_generateJSON : list ChatMessage -> jsobject -> LLMOptions -> Eff json
}.

(** The remote services, as the SDK clients show them: a request is answered
    by a response or by a rejection carrying an error. *)
Inductive ContentBlock : Type :=
| TextBlock (text : jsstring)
| OtherBlock.

Record AnthropicMessage : Type := {
  am_content : list ContentBlock;
  am_model : jsstring;
  am_input_tokens : number;
  am_output_tokens : number
}.

Record AnthropicRequest : Type := {
  ar_model : jsstring;
  ar_max_tokens : number;
  ar_messages : list (MessageRole * jsstring);
  ar_temperature : option number;
  ar_system : option jsstring
}.

Record OpenAIMessage : Type := {
  om_role : MessageRole;
  om_content : jsstring;
  om_name : option jsstring
}.

Record OpenAIRequest : Type := {
  or_model : jsstring;
  or_messages : list OpenAIMessage;
  or_temperature : option number;
  or_max_tokens : option number
}.

(** [choices[0]?.message?.content] and [usage?.prompt_tokens] may each be
    missing. *)
Record ChatCompletion : Type := {
  cc_first_content : option jsstring;
  cc_model : jsstring;
  cc_prompt_tokens : option number;
  cc_completion_tokens : option number
}.

Class Remote : Type := {
  anthropic_messages_create : AnthropicRequest -> Error + AnthropicMessage;
  openai_chat_completions_create : OpenAIRequest -> Error + ChatCompletion
}.

Definition newline : code_unit := 10%N.

(** Append to the [content] of the last message of the array; [None] when
    the array is empty and the read of [content] fails. *)
Fixpoint append_to_last {M} (update : M -> M) (messages : list M) : option (list M) :=
  match messages with
  | [] => None
  | [m] => Some [update m]
  | m :: rest => let? rest' := append_to_last update rest in Some (m :: rest')
  end.

Module BaseLLMProvider.

Definition initialUsage : UsageStats :=
  {| usage_totalTokens := num 0; usage_promptTokens := num 0;
     usage_completionTokens := num 0; usage_totalCost := num 0;
     usage_requestCount := num 0 |}.

(** [calculateCost] as the two providers override it: the cost of a call
    from a pricing table per million tokens (input, output); a model the
    table does not list is charged at [default_price].  The pricing of the
    base class itself is never reached. *)
Definition calculateCost (pricing : list (jsstring * (Q * Q)))
    (default_price : Q * Q)
    (model : jsstring) (promptTokens completionTokens : number) : number :=
  let modelPricing := nullish (assoc model pricing) default_price in
  num_add
    (num_mul (num_div promptTokens (num 1000000)) (Fin (fst modelPricing)))
    (num_mul (num_div completionTokens (num 1000000)) (Fin (snd modelPricing))).

Definition trackUsage (cost : number) (promptTokens completionTokens : number)
    (stats : UsageStats) : UsageStats :=
  let totalTokens := num_add promptTokens completionTokens in
  {| usage_promptTokens := num_add (usage_promptTokens stats) promptTokens;
     usage_completionTokens := num_add (usage_completionTokens stats) completionTokens;
     usage_totalTokens := num_add (usage_totalTokens stats) totalTokens;
     usage_totalCost := num_add (usage_totalCost stats) cost;
     usage_requestCount := num_add (usage_requestCount stats) (num 1) |}.

(** [handleError]: re-throw with the provider and the operation in front. *)
Definition handleError {A} (name : jsstring) (error : Error) (context : jsstring) : Eff A :=
  throw {| message := name ++ str " " ++ context ++ str ": " ++ message error |}.

Definition validateOptions (options : LLMOptions) : LLMOptions :=
  {| model := model options;
     temperature := Some (nullish (temperature options) (Fin (7 # 10)));
     maxTokens := Some (nullish (maxTokens options) (num 2000));
     topP := Some (nullish (topP options) (num 1));
     frequencyPenalty := Some (nullish (frequencyPenalty options) (num 0));
     presencePenalty := Some (nullish (presencePenalty options) (num 0));
     stop := Some (nullish (stop options) []);
     stream := Some (nullish (stream options) false) |}.

End BaseLLMProvider.

Module AnthropicProvider.
Section AnthropicProvider.
Context {host : Host} {remote : Remote}.

Definition name : jsstring := str "anthropic".

Definition pricing : list (jsstring * (Q * Q)) :=
  [ (str "claude-3-opus-20240229", (15, 75));
    (str "claude-3-5-sonnet-20241022", (3, 15));
    (str "claude-3-5-haiku-20241022", (8 # 10, 4));
    (str "claude-3-sonnet-20240229", (3, 15));
    (str "claude-3-haiku-20240307", (25 # 100, 125 # 100)) ]%Q.

Definition calculateCost : jsstring -> number -> number -> number :=
  BaseLLMProvider.calculateCost pricing (8 # 10, 4)%Q.

Definition trackUsage (model : jsstring) (promptTokens completionTokens : number)
  : Eff unit :=
  modify (fun w =>
    {| generateJSON_calls := generateJSON_calls w;
       anthropic_usage :=
         BaseLLMProvider.trackUsage
           (calculateCost model promptTokens completionTokens)
           promptTokens completionTokens (anthropic_usage w);
       openai_usage := openai_usage w |}).

(** System messages are joined into one preamble; user and assistant
    messages are kept in order; any other role is dropped. *)
Fixpoint convertMessages_loop (messages : list ChatMessage)
    (system : option jsstring) (anthropicMessages : list (MessageRole * jsstring))
  : option jsstring * list (MessageRole * jsstring) :=
  match messages with
  | [] => (system, anthropicMessages)
  | msg :: rest =>
      match role msg with
      | SYSTEM =>
          let system' :=
            match system with
            | Some s => if truthy_string s
                        then s ++ [newline; newline] ++ content msg
                        else content msg
            | None => content msg
            end in
          convertMessages_loop rest (Some system') anthropicMessages
      | USER | ASSISTANT =>
          convertMessages_loop rest system
            (anthropicMessages ++ [(role msg, content msg)])
      | FUNCTION => convertMessages_loop rest system anthropicMessages
      end
  end.

Definition convertMessages (messages : list ChatMessage) :=
  convertMessages_loop messages None [].

Definition extractContent (response : AnthropicMessage) : jsstring :=
  match am_content response with
  | TextBlock text :: _ => text
  | _ => []
  end.

Definition json_instruction : jsstring :=
  [newline; newline]
  ++ str "Respond with valid JSON only. Do not include any other text.".

Definition generateJSON (messages : list ChatMessage) (schema : jsobject)
    (options : LLMOptions) : Eff json :=
  (try_catch
    (let validatedOptions := BaseLLMProvider.validateOptions options in
     match append_to_last
             (fun m => {| role := role m;
                          content := content m ++ json_instruction;
                          msg_name := msg_name m |})
             messages with
     | None => throw {| message := undefined_content_message |}
     | Some modifiedMessages =>
         let (system, anthropicMessages) := convertMessages modifiedMessages in
         let max_tokens :=
           match maxTokens validatedOptions with
           | Some n => if truthy_number n then n else num 2048
           | None => num 2048
           end in
         let requestParams :=
           {| ar_model := model validatedOptions;
              ar_max_tokens := max_tokens;
              ar_messages := anthropicMessages;
              ar_temperature := temperature validatedOptions;
              ar_system := match system with
                           | Some s => if truthy_string s then Some s else None
                           | None => None
                           end |} in
         match anthropic_messages_create requestParams with
         | inl rejection => throw rejection
         | inr response =>
             let content := extractContent response in
             trackUsage (am_model response) (am_input_tokens response)
                        (am_output_tokens response) ;;;
             match JSON_parse content with
             | inl syntaxError => throw syntaxError
             | inr parsed => ret parsed
             end
         end
     end)
    (fun error => BaseLLMProvider.handleError name error (str "GenerateJSON")))%eff.

Definition provider : ILLMProvider :=
  {| provider_name := name; provider_generateJSON := generateJSON |}.

End AnthropicProvider.
End AnthropicProvider.

Module OpenAIProvider.
Section OpenAIProvider.
Context {host : Host} {remote : Remote}.

Definition name : jsstring := str "openai".

Definition pricing : list (jsstring * (Q * Q)) :=
  [ (str "gpt-4o", (25 # 10, 10));
    (str "gpt-4o-mini", (15 # 100, 6 # 10));
    (str "gpt-4-turbo", (10, 30));
    (str "gpt-4-turbo-preview", (10, 30));
    (str "gpt-4", (30, 60));
    (str "gpt-3.5-turbo", (5 # 10, 15 # 10)) ]%Q.

Definition calculateCost : jsstring -> number -> number -> number :=
  BaseLLMProvider.calculateCost pricing (15 # 100, 6 # 10)%Q.

Definition trackUsage (model : jsstring) (promptTokens completionTokens : number)
  : Eff unit :=
  modify (fun w =>
    {| generateJSON_calls := generateJSON_calls w;
       anthropic_usage := anthropic_usage w;
       openai_usage :=
         BaseLLMProvider.trackUsage
           (calculateCost model promptTokens completionTokens)
           promptTokens completionTokens (openai_usage w) |}).

Definition json_instruction : jsstring :=
  [newline; newline] ++ str "Respond with valid JSON only.".

(** [x || 0] on a token count that may be missing. *)
Definition or_zero (x : option number) : number :=
  match x with
  | Some n => if truthy_number n then n else num 0
  | None => num 0
  end.

Definition generateJSON (messages : list ChatMessage) (schema : jsobject)
    (options : LLMOptions) : Eff json :=
  (try_catch
    (let validatedOptions := BaseLLMProvider.validateOptions options in
     let openaiMessages :=
       map (fun msg =>
              {| om_role := role msg;
                 om_content := content msg;
                 om_name := match msg_name msg with
                            | Some n => if truthy_string n then Some n else None
                            | None => None
                            end |})
           messages in
     match append_to_last
             (fun m => {| om_role := om_role m;
                          om_content := om_content m ++ json_instruction;
                          om_name := om_name m |})
             openaiMessages with
     | None => throw {| message := undefined_content_message |}
     | Some openaiMessages' =>
         match openai_chat_completions_create
                 {| or_model := model validatedOptions;
                    or_messages := openaiMessages';
                    or_temperature := temperature validatedOptions;
                    or_max_tokens := maxTokens validatedOptions |} with
         | inl rejection => throw rejection
         | inr response =>
             let content :=
               match cc_first_content response with
               | Some c => if truthy_string c then c else str "{}"
               | None => str "{}"
               end in
             trackUsage (cc_model response)
                        (or_zero (cc_prompt_tokens response))
                        (or_zero (cc_completion_tokens response)) ;;;
             match JSON_parse content with
             | inl syntaxError => throw syntaxError
             | inr parsed => ret parsed
             end
         end
     end)
    (fun error => BaseLLMProvider.handleError name error (str "GenerateJSON")))%eff.

Definition provider : ILLMProvider :=
  {| provider_name := name; provider_generateJSON := generateJSON |}.

End OpenAIProvider.
End OpenAIProvider.

(* ================================================================== *)
(** ** Orchestrator ([ai.service.ts]) *)

(** [Partial<LLMOptions>]: what a caller may pass. *)
Record PartialLLMOptions : Type := {
  opt_model : option jsstring;
  opt_temperature : option number;
  opt_maxTokens : option number
}.

Module AiService.

(** The fields of the service: the registered providers ([Map] from the
    provider tag), the default provider and the default model. *)
Record t : Type := {
  providers : LLMProvider -> option ILLMProvider;
  defaultProvider : LLMProvider;
  defaultModel : jsstring
}.

Definition provider_tag (p : LLMProvider) : jsstring :=
  match p with
  | OPENAI => str "openai"
  | ANTHROPIC => str "anthropic"
  | LOCAL => str "local"
  end.

Definition getProvider (this : t) (type : option LLMProvider)
  : Eff ILLMProvider :=
  let providerType := nullish type (defaultProvider this) in
  match providers this providerType with
  | None =>
      throw {| message := str "Provider " ++ provider_tag providerType
                          ++ str " not registered" |}
  | Some provider => ret provider
  end.

(** [generateJSON]: every call is recorded in the world before anything
    else happens. *)
Definition generateJSON (this : t) (messages : list ChatMessage)
    (schema : jsobject) (options : PartialLLMOptions)
    (provider : option LLMProvider) : Eff json :=
  (modify (fun w =>
     {| generateJSON_calls := generateJSON_calls w ++ [messages];
        anthropic_usage := anthropic_usage w;
        openai_usage := openai_usage w |}) ;;;
   llmProvider <- getProvider this provider ;;
   let fullOptions :=
     {| model := nullish (opt_model options) (defaultModel this);
        temperature := opt_temperature options;
        maxTokens := opt_maxTokens options;
        topP := None; frequencyPenalty := None; presencePenalty := None;
        stop := None; stream := None |} in
   provider_generateJSON llmProvider messages schema fullOptions)%eff.

Definition createSystemMessage (content : jsstring) : ChatMessage :=
  {| role := SYSTEM; content := content; msg_name := None |}.

Definition createUserMessage (content : jsstring) : ChatMessage :=
  {| role := USER; content := content; msg_name := None |}.

End AiService.

(* ================================================================== *)
(** ** Prompt templates ([prompt-template.service.ts]) *)

Module PromptTemplateService.

(** The templates read from the prompt files when the service is built:
    a [Map] from the template name to its English and Chinese bodies. *)
Definition t : Type := list (jsstring * (jsstring * jsstring)).

Definition pick (locale : Locale) (bodies : jsstring * jsstring) : jsstring :=
  match locale with en => fst bodies | zh => snd bodies end.

Definition fallbacks : list (jsstring * (jsstring * jsstring)) :=
  [ (str "system",
     (str "You are a helpful AI assistant for SmartNZ Travel Planner.",
      [24744; 26159; 83; 109; 97; 114; 116; 78; 90; 26053; 34892; 35268;
       21010; 21161; 25163; 30340; 65; 73; 21161; 29702; 12290]%N));
    (str "intent",
     (str "Analyze the following user query and extract the intent and parameters.",
      [20998; 26512; 20197; 19979; 29992; 25143; 26597; 35810; 24182; 25552;
       21462; 24847; 22270; 21644; 21442; 25968; 12290]%N));
    (str "itinerary",
     (str "Create a detailed travel itinerary based on the given parameters.",
      [26681; 25454; 32473; 23450; 21442; 25968; 21019; 24314; 35814; 32454;
       30340; 26053; 34892; 34892; 31243; 12290]%N));
    (str "price-comparison",
     (str "Compare prices for the given activity from multiple providers.",
      [27604; 36739; 22810; 20010; 25552; 20379; 21830; 23545; 32473; 23450;
       27963; 21160; 30340; 20215; 26684; 12290]%N));
    (str "restaurant",
     (str "Recommend restaurants based on the given criteria.",
      [26681; 25454; 32473; 23450; 26631; 20934; 25512; 33616; 39184; 21381;
       12290]%N)) ].

Definition getFallbackTemplate (name : jsstring) (locale : Locale) : jsstring :=
  match assoc name fallbacks with
  | Some fallback => pick locale fallback
  | None =>
      match locale with
      | en => str "Process the user request."
      | zh => [22788; 29702; 29992; 25143; 35831; 27714; 12290]%N
      end
  end.

Definition getTemplate (this : t) (name : jsstring) (locale : Locale) : jsstring :=
  match assoc name this with
  | None => getFallbackTemplate name locale
  | Some template => pick locale template
  end.

End PromptTemplateService.

(* ================================================================== *)
(** ** Intent chain ([intent.chain.ts]) *)

Module IntentChain.
Section IntentChain.
Context {host : Host}.
Variable aiService : AiService.t.
Variable promptTemplateService : PromptTemplateService.t.

(** [/[\u4e00-\u9fff]/.test(query)]: some code unit of the query lies in
    the range of the character class, U+4E00 to U+9FFF. *)
Definition chineseRegex_test (query : jsstring) : bool :=
  existsb (fun c => (19968 <=? c)%N && (c <=? 40959)%N) query.

Definition detectLanguage (query : jsstring) : Locale :=
  if chineseRegex_test query then zh else en.

Definition createFallbackIntent (query : jsstring) (locale : Locale) : IntentResult :=
  {| type := GENERAL_QUERY;
     confidence := Fin (1 # 2);
     locale := locale;
     parameters := [];
     detectedLanguage := None;
     metadata := Some [ (str "fallback", JBool true);
                        (str "originalQuery", JString query) ] |}.

Definition context_role (r : ContextRole) : MessageRole :=
  match r with
  | ctx_system => SYSTEM
  | ctx_user => USER
  | ctx_assistant => ASSISTANT
  end.

(** The locale [extract] works with: [dto.locale || this.detectLanguage(dto.query)]. *)
Definition resolveLocale (dto : ExtractIntentDto) : Locale :=
  match query_locale dto with
  | Some l => l
  | None => detectLanguage (query dto)
  end.

(** The messages [extract] hands to the model. *)
Definition composeMessages (dto : ExtractIntentDto) (locale : Locale)
  : list ChatMessage :=
  let systemPrompt :=
    PromptTemplateService.getTemplate promptTemplateService (str "system") locale in
  let intentPrompt :=
    PromptTemplateService.getTemplate promptTemplateService (str "intent") locale in
  [ AiService.createSystemMessage systemPrompt;
    AiService.createSystemMessage intentPrompt ]
  ++ match context dto with
     | Some (_ :: _ as ctx) =>
         map (fun msg => {| role := context_role (dto_role msg);
                            content := dto_content msg;
                            msg_name := None |}) ctx
     | _ => []
     end
  ++ [ AiService.createUserMessage (query dto) ].

(** [intent.detectedLanguage = value]. *)
Definition set_detectedLanguage (intent : IntentResult) (value : Locale)
  : IntentResult :=
  {| type := type intent;
     confidence := confidence intent;
     locale := locale intent;
     parameters := parameters intent;
     detectedLanguage := Some value;
     metadata := metadata intent |}.

Definition extract_options : PartialLLMOptions :=
  {| opt_model := None;
     opt_temperature := Some (Fin (3 # 10));
     opt_maxTokens := Some (num 1000) |}.

Definition extract (dto : ExtractIntentDto) : Eff IntentResult :=
  (try_catch
    (let locale := resolveLocale dto in
     let messages := composeMessages dto locale in
     response <- AiService.generateJSON aiService messages [] extract_options None ;;
     match SchemaValidator.validate response intentSchema with
     | Invalid _ => ret (createFallbackIntent (query dto) locale)
     | Valid intent => ret (set_detectedLanguage intent locale)
     end)
    (fun error => throw error))%eff.

Definition isActionable (intent : IntentResult) : bool :=
  if num_ltb (confidence intent) (Fin (7 # 10)) then false
  else
    let has key := truthy (get (str key) (parameters intent)) in
    match type intent with
    | CREATE_ITINERARY => has "destination"%string || has "duration"%string
    | COMPARE_PRICES => has "destination"%string || has "specificRequests"%string
    | RECOMMEND_RESTAURANT | RECOMMEND_RENTAL => has "destination"%string
    | CHECK_WEATHER | CHECK_TRAFFIC => has "destination"%string
    | _ => true
    end.

End IntentChain.
End IntentChain.

(* ================================================================== *)
(** ** Itinerary chain ([itinerary.chain.ts]) *)

Record Statistics : Type := {
  totalDays : number;
  totalActivities : number;
  stat_totalCost : number;
  avgActivitiesPerDay : number;
  avgDailyBudget : number
}.

(** [array.length]. *)
Definition length_of {A} (l : list A) : number := num (Z.of_nat (List.length l)).

Module ItineraryChain.
Section ItineraryChain.
Context {host : Host}.
Variable aiService : AiService.t.
Variable promptTemplateService : PromptTemplateService.t.

(** [validateDateRange].  The number of days between the two dates is
    computed after the check only to log a warning when it differs from
    [days]; nothing else depends on it. *)
Definition validateDateRange (startDate endDate : jsstring) (days : number)
  : Eff unit :=
  let start := Date_getTime startDate in
  let end_ := Date_getTime endDate in
  if num_geb start end_
  then throw {| message := str "End date must be after start date" |}
  else ret tt.

Definition when (condition : bool) (line : jsstring) : list jsstring :=
  if condition then [line] else [].

Definition budget_tag (b : Budget) : jsstring :=
  match b with low => str "low" | medium => str "medium" | high => str "high" end.

Definition pace_tag (p : Pace) : jsstring :=
  match p with
  | relaxed => str "relaxed" | moderate => str "moderate" | fast => str "fast"
  end.

Definition budgetMap (b : Budget) : jsstring :=
  match b with
  | low => [32463; 27982] | medium => [20013; 31561] | high => [39640; 31471]
  end%N.

Definition paceMap (p : Pace) : jsstring :=
  match p with
  | relaxed => [36731; 26494] | moderate => [36866; 20013] | fast => [32039; 20945]
  end%N.

(** One line for each field of the request that is truthy. *)
Definition optional_line {T} (field : option T) (present : T -> bool)
    (line : T -> jsstring) : list jsstring :=
  match field with
  | Some v => when (present v) (line v)
  | None => []
  end.

Definition preference_lines (prefs : ItineraryPreferences)
    (interests_line : list jsstring -> jsstring)
    (budget_line : Budget -> jsstring) (pace_line : Pace -> jsstring)
    (accommodation_line transportation_line : jsstring -> jsstring)
  : list jsstring :=
  optional_line (interests prefs)
                (fun l => match l with [] => false | _ => true end)
                interests_line
  ++ optional_line (budget prefs) (fun _ => true) budget_line
  ++ optional_line (pace prefs) (fun _ => true) pace_line
  ++ optional_line (pref_accommodation prefs) truthy_string accommodation_line
  ++ optional_line (transportation prefs) truthy_string transportation_line.

Definition buildContextMessage (dto : GenerateItineraryDto) (locale : Locale)
  : jsstring :=
  let days := String_of_number (req_days dto) in
  let parts :=
    match locale with
    | en =>
        [ str "Create a " ++ days ++ str "-day itinerary for "
          ++ req_destination dto ++ str ".";
          str "Travel dates: " ++ req_startDate dto ++ str " to "
          ++ req_endDate dto ]
        ++ optional_line (travelers dto) truthy_number
             (fun n => str "Number of travelers: " ++ String_of_number n)
        ++ match preferences dto with
           | Some prefs =>
               preference_lines prefs
                 (fun l => str "Interests: " ++ join (str ", ") l)
                 (fun b => str "Budget level: " ++ budget_tag b)
                 (fun p => str "Preferred pace: " ++ pace_tag p)
                 (fun a => str "Accommodation preference: " ++ a)
                 (fun t => str "Transportation: " ++ t)
           | None => []
           end
        ++ optional_line (specificRequests dto) truthy_string
             (fun r => str "Specific requests: " ++ r)
    | zh =>
        [ [20026] ++ req_destination dto ++ [21019; 24314] ++ days
          ++ [22825; 30340; 34892; 31243; 12290];
          [26053; 34892; 26085; 26399; 65306] ++ req_startDate dto ++ [33267]
          ++ req_endDate dto ]%N
        ++ optional_line (travelers dto) truthy_number
             (fun n => [26053; 34892; 32773; 20154; 25968; 65306]%N
                       ++ String_of_number n)
        ++ match preferences dto with
           | Some prefs =>
               preference_lines prefs
                 (fun l => [20852; 36259; 65306]%N ++ join [12289%N] l)
                 (fun b => [39044; 31639; 27700; 24179; 65306]%N ++ budgetMap b)
                 (fun p => [33410; 22863; 65306]%N ++ paceMap p)
                 (fun a => [20303; 23487; 20559; 22909; 65306]%N ++ a)
                 (fun t => [20132; 36890; 26041; 24335; 65306]%N ++ t)
           | None => []
           end
        ++ optional_line (specificRequests dto) truthy_string
             (fun r => [29305; 27530; 35201; 27714; 65306]%N ++ r)
    end in
  join [newline] parts.

(** [parseTime]: [timeStr.split(':').map(Number)], the first two results
    being the hours and the minutes; a missing, zero or NaN minute part
    counts as 0. *)
Definition parseTime (timeStr : jsstring) : number :=
  let parts := map Number_of (split colon timeStr) in
  let hours := nth 0 parts NaN in
  let minutes := nth_error parts 1 in
  num_add (num_mul hours (num 60))
          (match minutes with
           | Some m => if truthy_number m then m else num 0
           | None => num 0
           end).

Definition compareByTime (a b : ItineraryActivity) : number :=
  let timeA := parseTime (time a) in
  let timeB := parseTime (time b) in
  num_sub timeA timeB.

(** [calculateTotalCost]: the two accumulators of the nested loops.  The
    total is a double, and [total += activity.cost.amount] is an addition
    of doubles. *)
Definition addActivity (acc : PrimFloat.float * jsstring)
  (activity : ItineraryActivity) : PrimFloat.float * jsstring :=
  match cost activity with
  | Some c => (Double.add (fst acc) (amount c), currency c)
  | None => acc
  end.

Definition calculateTotalCost (itinerary : GeneratedItinerary) : Money :=
  let '(total, currency) :=
    fold_left (fun acc day => fold_left addActivity (activities day) acc)
              (days itinerary) (PrimFloat.zero, str "NZD") in
  {| amount := Math_round (Double.to_number total); currency := currency |}.

Definition sortDay (day0 : ItineraryDay) : ItineraryDay :=
  {| day := day day0;
     date := date day0;
     activities := Array_sort compareByTime (activities day0);
     meals := meals day0;
     accommodation := accommodation day0;
     notes := notes day0 |}.

(** [optimizeItinerary] updates the itinerary in place; here it returns
    the updated value. *)
Definition optimizeItinerary (itinerary : GeneratedItinerary) : GeneratedItinerary :=
  let sorted :=
    {| title := title itinerary;
       summary := summary itinerary;
       destination := destination itinerary;
       startDate := startDate itinerary;
       endDate := endDate itinerary;
       days := map sortDay (days itinerary);
       totalCost := totalCost itinerary;
       recommendations := recommendations itinerary |} in
  match totalCost sorted with
  | Some _ => sorted
  | None =>
      {| title := title sorted;
         summary := summary sorted;
         destination := destination sorted;
         startDate := startDate sorted;
         endDate := endDate sorted;
         days := days sorted;
         totalCost := Some (calculateTotalCost sorted);
         recommendations := recommendations sorted |}
  end.

Definition countActivities (itinerary : GeneratedItinerary) : number :=
  fold_left (fun sum day0 => num_add sum (length_of (activities day0)))
            (days itinerary) (num 0).

Definition getStatistics (itinerary : GeneratedItinerary) : Statistics :=
  let totalActivities := countActivities itinerary in
  let totalCost :=
    match totalCost itinerary with
    | Some c => if truthy_number (amount c) then amount c else num 0
    | None => num 0
    end in
  {| totalDays := length_of (days itinerary);
     totalActivities := totalActivities;
     stat_totalCost := totalCost;
     avgActivitiesPerDay :=
       Math_round (num_div totalActivities (length_of (days itinerary)));
     avgDailyBudget :=
       Math_round (num_div totalCost (length_of (days itinerary))) |}.

(** ToBoolean on an optional string: [undefined] and the empty string are
    falsy. *)
Definition truthy_optional (s : option jsstring) : bool :=
  match s with Some text => truthy_string text | None => false end.

(** The deduction [estimateQuality] makes for one day, from the sum of the
    durations of its activities. *)
Definition deductForDay (score : number) (day0 : ItineraryDay) : number :=
  let totalDuration :=
    fold_left (fun sum act => num_add sum (duration act)) (activities day0) (num 0) in
  if num_gtb totalDuration (num 720) then num_sub score (num 15)
  else if num_ltb totalDuration (num 240) then num_sub score (num 10)
  else score.

Definition estimateQuality (itinerary : GeneratedItinerary) : number :=
  let score := num 100 in
  let activitiesPerDay := map (fun d => length_of (activities d)) (days itinerary) in
  let avgActivities :=
    num_div (fold_left (fun a b => num_add a b) activitiesPerDay (num 0))
            (length_of activitiesPerDay) in
  let variance :=
    num_div (fold_left (fun sum count =>
                          num_add sum (Math_pow2 (num_sub count avgActivities)))
                       activitiesPerDay (num 0))
            (length_of activitiesPerDay) in
  let score := if num_gtb variance (num 4) then num_sub score (num 10) else score in
  let score := fold_left deductForDay (days itinerary) score in
  let mealsPlanned :=
    length_of (filter (fun d => truthy_optional (lunch (meals d))
                                || truthy_optional (dinner (meals d)))
                      (days itinerary)) in
  let score :=
    if num_ltb mealsPlanned (num_mul (length_of (days itinerary)) (Fin (8 # 10)))
    then num_sub score (num 5) else score in
  Math_max (num 0) (Math_min (num 100) score).

Definition generate_options : PartialLLMOptions :=
  {| opt_model := None;
     opt_temperature := Some (Fin (7 # 10));
     opt_maxTokens := Some (num 4000) |}.

(** The messages [generate] hands to the model. *)
Definition composeMessages (dto : GenerateItineraryDto) (locale : Locale)
  : list ChatMessage :=
  let systemPrompt :=
    PromptTemplateService.getTemplate promptTemplateService (str "system") locale in
  let itineraryPrompt :=
    PromptTemplateService.getTemplate promptTemplateService (str "itinerary") locale in
  let contextMessage := buildContextMessage dto locale in
  [ AiService.createSystemMessage systemPrompt;
    AiService.createSystemMessage itineraryPrompt;
    AiService.createUserMessage contextMessage ].

Definition generate (dto : GenerateItineraryDto) : Eff GeneratedItinerary :=
  (try_catch
    (let locale := nullish (req_locale dto) en in
     validateDateRange (req_startDate dto) (req_endDate dto) (req_days dto) ;;;
     let messages := composeMessages dto locale in
     response <- AiService.generateJSON aiService messages [] generate_options None ;;
     match SchemaValidator.validate response itinerarySchema with
     | Invalid errors =>
         throw {| message := str "Invalid itinerary response: "
                             ++ JSON_stringify errors |}
     | Valid itinerary => ret (optimizeItinerary itinerary)
     end)
    (fun error => throw error))%eff.

End ItineraryChain.
End ItineraryChain.

(* ================================================================== *)
(** ** An example host

    A concrete host, remote service and orchestrator on which the chains
    can be run.  Each built-in is defined on the part of its domain that the
    examples below use: calendar dates [YYYY-MM-DD], decimal numerals,
    integers, and the JSON texts [{}], [[]], [null], [true] and [false].
    Elsewhere it answers as an engine does on an input it rejects (NaN, a
    SyntaxError), which is what an engine does on the other inputs of the
    examples. *)
Module Example.

Definition digit (c : code_unit) : option Z :=
  if ((48 <=? c) && (c <=? 57))%N then Some (Z.of_N c - 48)%Z else None.

Fixpoint numeral (s : jsstring) (acc : Z) : option Z :=
  match s with
  | [] => Some acc
  | c :: rest => let? d := digit c in numeral rest (10 * acc + d)%Z
  end.

(** Days from 1970-01-01 to the given day of the proleptic Gregorian
    calendar. *)
Definition days_from_civil (y m d : Z) : Z :=
  let y' := if (m <=? 2)%Z then (y - 1)%Z else y in
  let era := (y' / 400)%Z in
  let yoe := (y' - era * 400)%Z in
  let mp := if (m >? 2)%Z then (m - 3)%Z else (m + 9)%Z in
  let doy := ((153 * mp + 2) / 5 + d - 1)%Z in
  let doe := (yoe * 365 + yoe / 4 - yoe / 100 + doy)%Z in
  (era * 146097 + doe - 719468)%Z.

Definition is_leap (y : Z) : bool :=
  ((y mod 4 =? 0) && (negb (y mod 100 =? 0) || (y mod 400 =? 0)))%Z.

Definition days_in_month (y m : Z) : Z :=
  if (m =? 2)%Z then (if is_leap y then 29 else 28)%Z
  else if ((m =? 4) || (m =? 6) || (m =? 9) || (m =? 11))%Z then 30%Z
  else 31%Z.

(** The time value of a date-only string, midnight UTC of that day. *)
Definition Date_getTime (s : jsstring) : number :=
  match split 45%N s with
  | [ys; ms; ds] =>
      match numeral ys 0, numeral ms 0, numeral ds 0 with
      | Some y, Some m, Some d =>
          if ((List.length ys =? 4)%nat && (List.length ms =? 2)%nat
              && (List.length ds =? 2)%nat
              && (1 <=? m)%Z && (m <=? 12)%Z
              && (1 <=? d)%Z && (d <=? days_in_month y m)%Z)
          then num (days_from_civil y m d * 86400000)
          else NaN
      | _, _, _ => NaN
      end
  | _ => NaN
  end.

Definition Number_of (s : jsstring) : number :=
  match numeral s 0 with
  | Some z => num z
  | None => NaN
  end.

(** The decimal places of [r / d], for [0 <= r < d], at most [places] of
    them. *)
Fixpoint decimals (places : nat) (r d : Z) : jsstring :=
  match places with
  | O => []
  | S places' =>
      if (r =? 0)%Z then []
      else Z.to_N (48 + 10 * r / d) :: decimals places' ((10 * r) mod d) d
  end.

(** Decimal notation: an integer as its numeral, a fraction with its
    decimal places (cut after twenty when they do not end). *)
Definition String_of_number (n : number) : jsstring :=
  match n with
  | NaN => str "NaN"
  | PosInfinity => str "Infinity"
  | NegInfinity => str "-Infinity"
  | Fin q =>
      let a := Z.abs (Qnum q) in
      let d := Z.pos (Qden q) in
      (if (Qnum q <? 0)%Z then str "-" else [])
      ++ str (NilZero.string_of_int (Z.to_int (a / d)))
      ++ match decimals 20 (a mod d) d with
         | [] => []
         | places => str "." ++ places
         end
  end.

Definition JSON_parse (text : jsstring) : Error + json :=
  if jsstring_eqb text (str "{}") then inr (JObject [])
  else if jsstring_eqb text (str "[]") then inr (JArray [])
  else if jsstring_eqb text (str "null") then inr JNull
  else if jsstring_eqb text (str "true") then inr (JBool true)
  else if jsstring_eqb text (str "false") then inr (JBool false)
  else inl {| message := str "Unexpected token in JSON" |}.

Definition quote : code_unit := 34%N.

Definition JSON_stringify (errors : list ValidationIssue) : jsstring :=
  str "["
  ++ join (str ",")
       (map (fun e => str "{" ++ [quote] ++ str "path" ++ [quote] ++ str ":"
                      ++ [quote] ++ path e ++ [quote] ++ str ","
                      ++ [quote] ++ str "message" ++ [quote] ++ str ":"
                      ++ [quote] ++ issue_message e ++ [quote] ++ str "}")
            errors)
  ++ str "]".

Definition host : Host :=
  Build_Host Date_getTime Number_of String_of_number JSON_parse JSON_stringify
    (fun _ _ _ => [([], str "Invalid input")])
    (str "Cannot read properties of undefined (reading 'content')").

(** A remote service that answers every request with the same text. *)
Definition replying (text : jsstring) : Remote :=
  {| anthropic_messages_create := fun _ =>
       inr {| am_content := [TextBlock text];
              am_model := str "claude-3-5-sonnet-20241022";
              am_input_tokens := num 120;
              am_output_tokens := num 40 |};
     openai_chat_completions_create := fun _ =>
       inr {| cc_first_content := Some text;
              cc_model := str "gpt-4o-mini";
              cc_prompt_tokens := Some (num 120);
              cc_completion_tokens := Some (num 40) |} |}.

(** The orchestrator as [ai.module.ts] sets it up when both keys are
    configured: both providers registered, Anthropic the default. *)
Definition aiService (remote : Remote) : AiService.t :=
  {| AiService.providers := fun tag =>
       match tag with
       | ANTHROPIC => Some (@AnthropicProvider.provider host remote)
       | OPENAI => Some (@OpenAIProvider.provider host remote)
       | LOCAL => None
       end;
     AiService.defaultProvider := ANTHROPIC;
     AiService.defaultModel := str "claude-3-5-sonnet-20241022" |}.

(** No prompt file loaded: the fallback templates are used. *)
Definition templates : PromptTemplateService.t := [].

Definition initial : World :=
  {| generateJSON_calls := [];
     anthropic_usage := BaseLLMProvider.initialUsage;
     openai_usage := BaseLLMProvider.initialUsage |}.

(** JSON payloads in the shape the itinerary prompt asks for. *)
Definition text (both : string) : json :=
  JObject [ (str "en", JString (str both)); (str "zh", JString (str both)) ].

Definition activity (time : string) (cost : option (Q * string)) : json :=
  JObject
    ([ (str "time", JString (str time));
       (str "name", text "Activity");
       (str "description", text "Desc");
       (str "location", JObject [ (str "name", JString (str "Location")) ]);
       (str "duration", JNumber 60);
       (str "category", JString (str "attraction")) ]
     ++ match cost with
        | Some (a, c) =>
            [ (str "cost", JObject [ (str "amount", JNumber a);
                                     (str "currency", JString (str c)) ]) ]
        | None => []
        end).

Definition day (n : Z) (date : string) (activities : list json) : json :=
  JObject [ (str "day", JNumber (inject_Z n));
            (str "date", JString (str date));
            (str "activities", JArray activities);
            (str "meals", JObject []) ].

(** An itinerary without [totalCost]. *)
Definition itinerary (days : list json) : json :=
  JObject [ (str "title", text "Test");
            (str "summary", text "Summary");
            (str "destination", JString (str "Auckland"));
            (str "startDate", JString (str "2025-12-01"));
            (str "endDate", JString (str "2025-12-03"));
            (str "days", JArray days);
            (str "recommendations", JArray []) ].

(** The value the validator makes of a payload, [None] when it rejects it. *)
Definition validated (payload : json) : option GeneratedItinerary :=
  match @SchemaValidator.validate host _ payload itinerarySchema with
  | Valid data => Some data
  | Invalid _ => None
  end.

End Example.

(* ================================================================== *)
(** ** Vocabulary of the specification *)

(** The characters of a string, as Unicode has them: its code points, read
    from the UTF-16 code units.  A high surrogate (U+D800 to U+DBFF)
    followed by a low one (U+DC00 to U+DFFF) is one supplementary
    character; any other code unit is the character of that number. *)
Definition high_surrogate (c : code_unit) : bool :=
  ((55296 <=? c) && (c <=? 56319))%N.

Definition low_surrogate (c : code_unit) : bool :=
  ((56320 <=? c) && (c <=? 57343))%N.

Fixpoint code_points (s : jsstring) : list N :=
  match s with
  | [] => []
  | c :: rest =>
      match rest with
      | lo :: after =>
          if high_surrogate c && low_surrogate lo
          then (65536 + (c - 55296) * 1024 + (lo - 56320))%N :: code_points after
          else c :: code_points rest
      | [] => [c]
      end
  end.

(** The blocks of Unicode that hold the CJK ideographs, by first and last
    code point: CJK Unified Ideographs (U+4E00 to U+9FFF), its extensions A
    (U+3400 to U+4DBF) and B to I (in planes 2 and 3), and the two blocks of
    compatibility ideographs. *)
Definition CJK_blocks : list (N * N) :=
  [ (13312, 19903);    (* U+3400..U+4DBF    Extension A *)
    (19968, 40959);    (* U+4E00..U+9FFF    CJK Unified Ideographs *)
    (63744, 64255);    (* U+F900..U+FAFF    Compatibility Ideographs *)
    (131072, 173791);  (* U+20000..U+2A6DF  Extension B *)
    (173824, 177983);  (* U+2A700..U+2B73F  Extension C *)
    (177984, 178207);  (* U+2B740..U+2B81F  Extension D *)
    (178208, 183983);  (* U+2B820..U+2CEAF  Extension E *)
    (183984, 191471);  (* U+2CEB0..U+2EBEF  Extension F *)
    (191472, 192095);  (* U+2EBF0..U+2EE5F  Extension I *)
    (194560, 195103);  (* U+2F800..U+2FA1F  Compatibility Supplement *)
    (196608, 201551);  (* U+30000..U+3134F  Extension G *)
    (201552, 205743)   (* U+31350..U+323AF  Extension H *) ]%N.

Definition CJK_ideograph (cp : N) : Prop :=
  Exists (fun block => (fst block <= cp <= snd block)%N) CJK_blocks.

(** A character of the one block CJK Unified Ideographs, U+4E00 to U+9FFF. *)
Definition CJK_Unified_Ideographs (cp : N) : Prop := (19968 <= cp <= 40959)%N.

Definition ASCII (c : code_unit) : Prop := (c < 128)%N.

(** The intent the specification calls the fallback intent. *)
Definition fallback_intent (query : jsstring) (resolved : Locale) : IntentResult :=
  {| type := GENERAL_QUERY;
     confidence := Fin (1 # 2);
     locale := resolved;
     parameters := [];
     detectedLanguage := None;
     metadata := Some [ (str "fallback", JBool true);
                        (str "originalQuery", JString query) ] |}.

(** The comparator of a sort by a numeric key, [key(x) - key(y)]. *)
Definition compare_keys {A} (key : A -> number) (x y : A) : number :=
  num_sub (key x) (key y).

(** [x] may stand before [y]: its key is at most the key of [y], under the
    [<=] of JavaScript (which no NaN satisfies). *)
Definition key_le {A} (key : A -> number) (x y : A) : Prop :=
  num_leb (key x) (key y) = true.

(** The parsed time-of-day of an activity. *)
Definition timeOfDay {host : Host} (a : ItineraryActivity) : number :=
  ItineraryChain.parseTime (time a).

(** Sorted non-decreasing by parsed time-of-day: every activity is at most
    as late as each one after it. *)
Definition sorted_by_time {host : Host} (l : list ItineraryActivity) : Prop :=
  StronglySorted (key_le timeOfDay) l.

(** [l'] keeps the relative order that the activities of equal parsed time
    have in [l]. *)
Definition keeps_ties {host : Host} (l l' : list ItineraryActivity) : Prop :=
  forall k : number,
    filter (fun a => num_eqb (timeOfDay a) k) l'
    = filter (fun a => num_eqb (timeOfDay a) k) l.

(** The costs that the activities carry, in day order and then in activity
    order. *)
Definition costs_of_day (d : ItineraryDay) : list Money :=
  flat_map (fun a => match cost a with Some c => [c] | None => [] end)
           (activities d).

Definition costs (itinerary : GeneratedItinerary) : list Money :=
  flat_map costs_of_day (days itinerary).

(** The exact sum of a list of numbers. *)
Definition sum (l : list number) : number := fold_right num_add (num 0) l.

(** The sum of a list of numbers as the code computes it: every number as
    a double, added one after the other to a total that starts at 0, each
    addition rounded to the nearest double. *)
Definition double_sum (l : list number) : number :=
  Double.to_number (fold_left Double.add l PrimFloat.zero).

(** The currency the specification describes: the first one that is not the
    empty string, "NZD" when there is none. *)
Definition first_nonempty_currency (l : list Money) : jsstring :=
  match find (fun c => truthy_string (currency c)) l with
  | Some c => currency c
  | None => str "NZD"
  end.

(** One step of [calculateTotalCost] on a cost: the two loops of the
    function are one pass of this step over [costs]. *)
Definition addMoney (acc : PrimFloat.float * jsstring) (c : Money)
  : PrimFloat.float * jsstring :=
  (Double.add (fst acc) (amount c), currency c).

(* ================================================================== *)
(** ** Stand-ins for the orchestrator

    The test suites replace the orchestrator by one whose [generateJSON]
    resolves to a prepared value ([mockResolvedValue]) or rejects with a
    prepared error; [Mock.aiService] is that orchestrator.  [OpenAIOnly] is
    the orchestrator [ai.module.ts] builds when only the OpenAI key is
    configured. *)
Module Mock.

Definition provider (outcome : Completion json) : ILLMProvider :=
  {| provider_name := str "mock";
     provider_generateJSON := fun _ _ _ w => (outcome, w) |}.

Definition aiService (outcome : Completion json) : AiService.t :=
  {| AiService.providers := fun _ => Some (provider outcome);
     AiService.defaultProvider := ANTHROPIC;
     AiService.defaultModel := str "claude-3-5-sonnet-20241022" |}.

(** The payload of the first test of the intent chain. *)
Definition auckland_intent : json :=
  JObject [ (str "type", JString (str "create_itinerary"));
            (str "confidence", JNumber (95 # 100));
            (str "locale", JString (str "en"));
            (str "parameters",
             JObject [ (str "destination", JString (str "Auckland"));
                       (str "duration", JNumber 3) ]) ].

End Mock.

Module OpenAIOnly.

Definition aiService (remote : Remote) : AiService.t :=
  {| AiService.providers := fun tag =>
       match tag with
       | OPENAI => Some (@OpenAIProvider.provider Example.host remote)
       | _ => None
       end;
     AiService.defaultProvider := OPENAI;
     AiService.defaultModel := str "gpt-4o-mini" |}.

(** A remote service whose completions carry no content. *)
Definition silent : Remote :=
  {| anthropic_messages_create := fun _ =>
       inl {| message := str "401 invalid x-api-key" |};
     openai_chat_completions_create := fun _ =>
       inr {| cc_first_content := None;
              cc_model := str "gpt-4o-mini";
              cc_prompt_tokens := Some (num 120);
              cc_completion_tokens := Some (num 0) |} |}.

End OpenAIOnly.

(** The statistics of a provider are consistent when the total is the sum
    of the prompt and completion tokens. *)
Definition usage_consistent (stats : UsageStats) : Prop :=
  num_eq (usage_totalTokens stats)
         (num_add (usage_promptTokens stats) (usage_completionTokens stats)).

(** The messages the Anthropic API takes in its [messages] array. *)
Definition conversational (m : ChatMessage) : bool :=
  match role m with USER | ASSISTANT => true | _ => false end.

Definition is_system (m : ChatMessage) : bool :=
  match role m with SYSTEM => true | _ => false end.

(** The keys the itinerary schema does not mark optional. *)
Definition required_itinerary_keys : list jsstring :=
  [ str "title"; str "summary"; str "destination"; str "startDate";
    str "endDate"; str "days"; str "recommendations" ].

(* ================================================================== *)
(** * Properties *)

(** ** Numbers *)

Lemma num_ltb_Fin (x y : Q) : num_ltb (Fin x) (Fin y) = true <-> (x < y)%Q.
Proof.
  simpl. rewrite Qlt_alt. destruct (x ?= y)%Q; split; congruence.
Qed.

Lemma num_eqb_Fin (x y : Q) : num_eqb (Fin x) (Fin y) = true <-> (x == y)%Q.
Proof. apply Qeq_bool_iff. Qed.

Lemma num_leb_Fin (x y : Q) : num_leb (Fin x) (Fin y) = true <-> (x <= y)%Q.
Proof.
  unfold num_leb. rewrite orb_true_iff, num_ltb_Fin, num_eqb_Fin.
  rewrite Qle_lteq. tauto.
Qed.

(** The comparator [timeA - timeB] is positive exactly when [timeB < timeA],
    NaN included (both sides are then false). *)
Lemma difference_positive (a b : number) :
  num_gtb (num_sub a b) (num 0) = num_ltb b a.
Proof.
  destruct a as [| | |x], b as [| | |y]; try reflexivity.
  unfold num_gtb, num_sub, num_neg, num_add, num.
  apply eq_true_iff_eq. rewrite !num_ltb_Fin.
  rewrite (Qlt_minus_iff y x). reflexivity.
Qed.

Lemma num_ltb_irrefl_eq (a b : number) :
  num_eqb a b = true -> num_ltb a b = false.
Proof.
  destruct a as [| | |x], b as [| | |y]; simpl; try congruence.
  intros H. apply Qeq_bool_iff in H. apply Qeq_alt in H. now rewrite H.
Qed.

Lemma num_eqb_trans (a b c : number) :
  num_eqb a b = true -> num_eqb b c = true -> num_eqb a c = true.
Proof.
  destruct a, b, c; simpl; try congruence.
  rewrite !Qeq_bool_iff. intros H1 H2. now rewrite H1.
Qed.

Lemma num_eqb_sym (a b : number) : num_eqb a b = num_eqb b a.
Proof.
  destruct a as [| | |x], b as [| | |y]; simpl; try reflexivity.
  apply eq_true_iff_eq. rewrite !Qeq_bool_iff. split; intros H; now symmetry.
Qed.

(** On numbers other than NaN the order is total. *)
Lemma num_leb_total (a b : number) :
  a <> NaN -> b <> NaN -> num_ltb b a = false -> num_leb a b = true.
Proof.
  destruct a as [| | |x], b as [| | |y]; simpl; try congruence; try reflexivity.
  intros _ _ H. apply num_leb_Fin.
  destruct (Qlt_le_dec y x) as [Hlt|Hle]; [|exact Hle].
  apply num_ltb_Fin in Hlt. simpl in Hlt. congruence.
Qed.

Lemma num_ltb_leb (a b : number) : num_ltb a b = true -> num_leb a b = true.
Proof. unfold num_leb. intros ->. reflexivity. Qed.

Lemma num_leb_trans (a b c : number) :
  num_leb a b = true -> num_leb b c = true -> num_leb a c = true.
Proof.
  destruct a as [| | |x], b as [| | |y], c as [| | |z]; intros H1 H2;
    try reflexivity;
    try (unfold num_leb in H1; simpl in H1; congruence);
    try (unfold num_leb in H2; simpl in H2; congruence).
  apply num_leb_Fin in H1, H2. apply num_leb_Fin.
  eapply Qle_trans; eassumption.
Qed.

#[export] Instance num_eq_Equivalence : Equivalence num_eq.
Proof.
  split.
  - intros [| | |x]; simpl; auto. reflexivity.
  - intros [| | |x] [| | |y]; simpl; auto. intros H. now symmetry.
  - intros [| | |x] [| | |y] [| | |z]; simpl; auto; try tauto.
    intros H1 H2. now rewrite H1.
Qed.

#[export] Instance num_add_Proper : Proper (num_eq ==> num_eq ==> num_eq) num_add.
Proof.
  intros [| | |x] [| | |x'] Hx [| | |y] [| | |y'] Hy; simpl in *; auto; try tauto.
  now rewrite Hx, Hy.
Qed.

#[export] Instance Math_round_Proper : Proper (num_eq ==> num_eq) Math_round.
Proof.
  intros [| | |x] [| | |x'] Hx; try exact Hx.
  unfold Math_round, num, num_eq in *.
  assert (E : Qfloor (x + (1 # 2)) = Qfloor (x' + (1 # 2))).
  { apply Qfloor_comp. now rewrite Hx. }
  rewrite E. reflexivity.
Qed.

Lemma num_add_comm (a b : number) : num_eq (num_add a b) (num_add b a).
Proof.
  destruct a as [| | |x], b as [| | |y]; simpl; auto. apply Qplus_comm.
Qed.

Lemma num_add_assoc (a b c : number) :
  num_eq (num_add a (num_add b c)) (num_add (num_add a b) c).
Proof.
  destruct a as [| | |x], b as [| | |y], c as [| | |z]; simpl; auto.
  apply Qplus_assoc.
Qed.

Lemma num_add_0_l (a : number) : num_eq (num_add (num 0) a) a.
Proof. destruct a as [| | |x]; simpl; auto. apply Qplus_0_l. Qed.

(** [Math.round] of a finite number is an integer at distance at most one
    half, the upper one when two are that close. *)
Lemma Math_round_nearest (x : Q) :
  exists z : Z, Math_round (Fin x) = num z
                /\ (x - (1 # 2) < inject_Z z)%Q /\ (inject_Z z <= x + (1 # 2))%Q.
Proof.
  exists (Qfloor (x + (1 # 2))). split; [reflexivity|]. split.
  - pose proof (Qlt_floor (x + (1 # 2))) as H.
    rewrite inject_Z_plus in H.
    apply Qplus_lt_l with (z := 1%Q). 
    eapply Qle_lt_trans; [|exact H].
    ring_simplify. apply Qle_refl.
  - apply Qfloor_le.
Qed.

(** ** Sorting by a numeric key

    [Array_sort] with a comparator [key x - key y] is insertion by the key.
    It always permutes its argument and never exchanges two elements with
    the same key; when no key is NaN the result is ordered. *)
Section SortByKey.
Variable A : Type.
Variable key : A -> number.

Local Abbreviation comparefn := (compare_keys key).
Local Abbreviation key_le := (key_le key).

Lemma sorts_after_key (x y : A) :
  sorts_after comparefn x y = num_ltb (key y) (key x).
Proof. apply difference_positive. Qed.

Lemma sort_insert_Permutation (x : A) (l : list A) :
  Permutation (x :: l) (sort_insert comparefn x l).
Proof.
  induction l as [|y l IH]; simpl.
  - apply Permutation_refl.
  - destruct (sorts_after comparefn x y).
    + eapply Permutation_trans; [apply perm_swap|].
      apply perm_skip. exact IH.
    + apply Permutation_refl.
Qed.

Lemma Array_sort_Permutation (l : list A) :
  Permutation l (Array_sort comparefn l).
Proof.
  induction l as [|x l IH]; simpl.
  - apply perm_nil.
  - eapply Permutation_trans; [|apply sort_insert_Permutation].
    apply perm_skip. exact IH.
Qed.

Lemma sort_insert_stable (k : number) (x : A) (l : list A) :
  filter (fun a => num_eqb (key a) k) (sort_insert comparefn x l)
  = filter (fun a => num_eqb (key a) k) (x :: l).
Proof.
  induction l as [|y l IH]; [reflexivity|].
  simpl sort_insert. rewrite sorts_after_key.
  destruct (num_ltb (key y) (key x)) eqn:Hlt; [|reflexivity].
  simpl in *. rewrite IH.
  destruct (num_eqb (key x) k) eqn:Hx; [|reflexivity].
  destruct (num_eqb (key y) k) eqn:Hy; [|reflexivity].
  exfalso.
  rewrite num_eqb_sym in Hx.
  pose proof (num_eqb_trans _ _ _ Hy Hx) as Hyx.
  apply num_ltb_irrefl_eq in Hyx. congruence.
Qed.

Lemma Array_sort_stable (k : number) (l : list A) :
  filter (fun a => num_eqb (key a) k) (Array_sort comparefn l)
  = filter (fun a => num_eqb (key a) k) l.
Proof.
  induction l as [|x l IH]; [reflexivity|].
  simpl Array_sort. rewrite sort_insert_stable. simpl. now rewrite IH.
Qed.

Lemma sort_insert_sorted (x : A) (l : list A) :
  key x <> NaN -> Forall (fun a => key a <> NaN) l ->
  StronglySorted key_le l ->
  StronglySorted key_le (sort_insert comparefn x l).
Proof.
  intros Hx Hl Hs. induction Hs as [|y l Hs IH Hy]; simpl.
  - constructor; constructor.
  - inversion Hl as [|? ? Hyn Hln]; subst.
    rewrite sorts_after_key.
    destruct (num_ltb (key y) (key x)) eqn:Hlt.
    + constructor; [now apply IH|].
      eapply Permutation_Forall; [apply sort_insert_Permutation|].
      constructor; [|exact Hy].
      now apply num_ltb_leb.
    + assert (Hxy : key_le x y) by now apply num_leb_total.
      constructor; [now constructor|].
      constructor; [exact Hxy|].
      eapply Forall_impl; [|exact Hy].
      intros z Hz. eapply num_leb_trans; eassumption.
Qed.

Lemma Array_sort_sorted (l : list A) :
  Forall (fun a => key a <> NaN) l ->
  StronglySorted key_le (Array_sort comparefn l).
Proof.
  induction 1 as [|x l Hx Hl IH]; simpl.
  - constructor.
  - apply sort_insert_sorted; [exact Hx| |exact IH].
    eapply Permutation_Forall; [apply Array_sort_Permutation|exact Hl].
Qed.
End SortByKey.

(** ** Running the chains *)

Lemma append_to_last_snoc {M} (update : M -> M) (l : list M) (m : M) :
  append_to_last update (l ++ [m]) = Some (l ++ [update m]).
Proof.
  induction l as [|x l IH]; [reflexivity|].
  simpl app. simpl append_to_last. rewrite IH.
  destruct (l ++ [m]) eqn:E; [|reflexivity].
  destruct l; discriminate.
Qed.

(** What [extract] does with each outcome of [generateJSON]. *)
Lemma extract_outcome (host : Host) (aiService : AiService.t)
    (templates : PromptTemplateService.t) (dto : ExtractIntentDto) (w : World) :
  IntentChain.extract aiService templates dto w
  = match AiService.generateJSON aiService
            (IntentChain.composeMessages templates dto (IntentChain.resolveLocale dto))
            [] IntentChain.extract_options None w with
    | (Return response, w') =>
        (Return
           match SchemaValidator.validate response intentSchema with
           | Invalid _ =>
               IntentChain.createFallbackIntent (query dto)
                                                (IntentChain.resolveLocale dto)
           | Valid intent =>
               IntentChain.set_detectedLanguage intent
                                                (IntentChain.resolveLocale dto)
           end, w')
    | (Throw error, w') => (Throw error, w')
    end.
Proof.
  unfold IntentChain.extract, try_catch, bind.
  destruct (AiService.generateJSON _ _ _ _ _ w) as [[response|error] w'].
  - destruct (SchemaValidator.validate response intentSchema); reflexivity.
  - reflexivity.
Qed.

(** What [generate] does once the dates are accepted. *)
Lemma generate_outcome (host : Host) (aiService : AiService.t)
    (templates : PromptTemplateService.t) (dto : GenerateItineraryDto) (w : World) :
  num_geb (Date_getTime (req_startDate dto)) (Date_getTime (req_endDate dto)) = false ->
  ItineraryChain.generate aiService templates dto w
  = match AiService.generateJSON aiService
            (ItineraryChain.composeMessages templates dto (nullish (req_locale dto) en))
            [] ItineraryChain.generate_options None w with
    | (Return response, w') =>
        match SchemaValidator.validate response itinerarySchema with
        | Invalid errors =>
            (Throw {| message := str "Invalid itinerary response: "
                                 ++ JSON_stringify errors |}, w')
        | Valid itinerary => (Return (ItineraryChain.optimizeItinerary itinerary), w')
        end
    | (Throw error, w') => (Throw error, w')
    end.
Proof.
  intros Hdates.
  unfold ItineraryChain.generate, ItineraryChain.validateDateRange, try_catch, bind.
  rewrite Hdates. unfold ret at 1.
  destruct (AiService.generateJSON _ _ _ _ _ w) as [[response|error] w'].
  - destruct (SchemaValidator.validate response itinerarySchema); reflexivity.
  - reflexivity.
Qed.

(** A text that [JSON.parse] rejects makes the Anthropic provider throw, the
    usage of the call already counted. *)
Lemma AnthropicProvider_malformed (host : Host) (remote : Remote)
    (messages : list ChatMessage) (last : ChatMessage) (schema : jsobject)
    (options : LLMOptions) (response : AnthropicMessage) (syntaxError : Error)
    (w : World) :
  (forall request, anthropic_messages_create request = inr response) ->
  JSON_parse (AnthropicProvider.extractContent response) = inl syntaxError ->
  exists w',
    AnthropicProvider.generateJSON (messages ++ [last]) schema options w
    = (Throw {| message := str "anthropic GenerateJSON: " ++ message syntaxError |}, w')
    /\ generateJSON_calls w' = generateJSON_calls w.
Proof.
  intros Hreply Hparse.
  unfold AnthropicProvider.generateJSON, try_catch.
  rewrite append_to_last_snoc.
  destruct (AnthropicProvider.convertMessages _) as [system anthropicMessages].
  rewrite Hreply. unfold bind, AnthropicProvider.trackUsage, modify.
  rewrite Hparse. unfold throw, BaseLLMProvider.handleError, throw.
  eexists. split; reflexivity.
Qed.

Lemma OpenAIProvider_malformed (host : Host) (remote : Remote)
    (messages : list ChatMessage) (last : ChatMessage) (schema : jsobject)
    (options : LLMOptions) (response : ChatCompletion) (text : jsstring)
    (syntaxError : Error) (w : World) :
  (forall request, openai_chat_completions_create request = inr response) ->
  cc_first_content response = Some text -> truthy_string text = true ->
  JSON_parse text = inl syntaxError ->
  exists w',
    OpenAIProvider.generateJSON (messages ++ [last]) schema options w
    = (Throw {| message := str "openai GenerateJSON: " ++ message syntaxError |}, w')
    /\ generateJSON_calls w' = generateJSON_calls w.
Proof.
  intros Hreply Htext Htruthy Hparse.
  unfold OpenAIProvider.generateJSON, try_catch.
  rewrite map_app. cbn [map]. rewrite append_to_last_snoc.
  rewrite Hreply, Htext, Htruthy. unfold bind, OpenAIProvider.trackUsage, modify.
  rewrite Hparse. unfold throw, BaseLLMProvider.handleError, throw.
  eexists. split; reflexivity.
Qed.

(** ** Itinerary requests with a reversed date range *)

(** C1, as the code has it.  When both dates can be read and the start
    date is not strictly before the end date, [generate] throws the error
    "End date must be after start date" and leaves the world as it was: in
    particular no call of [generateJSON] has been recorded. *)
Theorem generate_rejects_reversed_dates (host : Host) (aiService : AiService.t)
    (templates : PromptTemplateService.t) (dto : GenerateItineraryDto) (w : World) :
  Date_getTime (req_startDate dto) <> NaN ->
  Date_getTime (req_endDate dto) <> NaN ->
  num_ltb (Date_getTime (req_startDate dto)) (Date_getTime (req_endDate dto)) = false ->
  ItineraryChain.generate aiService templates dto w
  = (Throw {| message := str "End date must be after start date" |}, w)
  /\ generateJSON_calls (snd (ItineraryChain.generate aiService templates dto w))
     = generateJSON_calls w.
Proof.
  intros Hstart Hend Hnot_before.
  assert (Hdates : num_geb (Date_getTime (req_startDate dto))
                           (Date_getTime (req_endDate dto)) = true)
    by (apply num_leb_total; assumption).
  assert (E : ItineraryChain.generate aiService templates dto w
              = (Throw {| message := str "End date must be after start date" |}, w)).
  { unfold ItineraryChain.generate, ItineraryChain.validateDateRange, try_catch, bind.
    rewrite Hdates. reflexivity. }
  rewrite E. split; reflexivity.
Qed.

(** The request of the test suite: 2025-12-10 to 2025-12-05. *)
Lemma generate_rejects_reversed_dates_witness :
  let dto := {| req_destination := str "Auckland";
                req_startDate := str "2025-12-10";
                req_endDate := str "2025-12-05";
                req_days := num 3;
                travelers := None; preferences := None;
                req_locale := Some en; specificRequests := None |} in
  let run := @ItineraryChain.generate Example.host
               (Example.aiService (Example.replying (str "{}")))
               Example.templates dto Example.initial in
  run = (Throw {| message := str "End date must be after start date" |},
         Example.initial)
  /\ generateJSON_calls (snd run) = generateJSON_calls Example.initial.
Proof.
  intros dto run.
  apply (generate_rejects_reversed_dates Example.host
           (Example.aiService (Example.replying (str "{}")))
           Example.templates dto Example.initial).
  - vm_compute. discriminate.
  - vm_compute. discriminate.
  - vm_compute. reflexivity.
Defined.

(** C1 as the specification states it fails: a start date that cannot be
    read has the time value NaN, which is not before any end date, and
    which [start >= end] does not hold of either.  The request from "soon"
    to 2025-12-05 passes the check, the model is called once and its
    itinerary is returned. *)
Lemma generate_unreadable_date_counterexample :
  let dto := {| req_destination := str "Auckland";
                req_startDate := str "soon";
                req_endDate := str "2025-12-05";
                req_days := num 3;
                travelers := None; preferences := None;
                req_locale := Some en; specificRequests := None |} in
  let run := @ItineraryChain.generate Example.host
               (Mock.aiService (Return (Example.itinerary [])))
               Example.templates dto Example.initial in
  @Date_getTime Example.host (req_startDate dto) = NaN
  /\ num_ltb (@Date_getTime Example.host (req_startDate dto))
             (@Date_getTime Example.host (req_endDate dto)) = false
  /\ (exists itinerary, fst run = Return itinerary)
  /\ generateJSON_calls Example.initial = []
  /\ List.length (generateJSON_calls (snd run)) = 1%nat.
Proof.
  vm_compute. repeat split. eexists. reflexivity.
Qed.

(** ** Intent extraction *)

(** The character class of [detectLanguage] is the block CJK Unified
    Ideographs: a code unit of U+4E00 to U+9FFF is no surrogate, so it is a
    character of the string, and a pair of surrogates makes a character
    above U+FFFF. *)
Lemma code_points_block (s : jsstring) :
  Exists CJK_Unified_Ideographs (code_points s)
  <-> Exists CJK_Unified_Ideographs s.
Proof.
  assert (H : forall n s, (List.length s <= n)%nat ->
              (Exists CJK_Unified_Ideographs (code_points s)
               <-> Exists CJK_Unified_Ideographs s)).
  { clear s. induction n as [|n IH]; intros s Hlen.
    - destruct s; [reflexivity|simpl in Hlen; lia].
    - destruct s as [|hi [|lo after]]; [reflexivity|reflexivity|].
      change (code_points (hi :: lo :: after))
        with (if high_surrogate hi && low_surrogate lo
              then (65536 + (hi - 55296) * 1024 + (lo - 56320))%N
                   :: code_points after
              else hi :: code_points (lo :: after)).
      destruct (high_surrogate hi && low_surrogate lo) eqn:Hpair.
      + apply andb_true_iff in Hpair. destruct Hpair as [Hhi Hlo].
        unfold high_surrogate in Hhi. unfold low_surrogate in Hlo.
        apply andb_true_iff in Hhi, Hlo.
        destruct Hhi as [Hhi1 Hhi2], Hlo as [Hlo1 Hlo2].
        apply N.leb_le in Hhi1, Hhi2, Hlo1, Hlo2.
        rewrite !Exists_cons. rewrite (IH after) by (simpl in Hlen; lia).
        unfold CJK_Unified_Ideographs. split.
        * intros [Habove|Hafter]; [lia|]. right. right. exact Hafter.
        * intros [Hc|[Hc|Hafter]]; [lia|lia|]. right. exact Hafter.
      + rewrite (Exists_cons _ hi (code_points (lo :: after))).
        rewrite (Exists_cons _ hi (lo :: after)).
        rewrite (IH (lo :: after)) by (simpl in Hlen |- *; lia).
        reflexivity. }
  apply (H (List.length s)). apply le_n.
Qed.

Lemma chineseRegex_test_block (s : jsstring) :
  IntentChain.chineseRegex_test s = true
  <-> Exists CJK_Unified_Ideographs (code_points s).
Proof.
  rewrite code_points_block. unfold IntentChain.chineseRegex_test.
  rewrite existsb_exists, Exists_exists. unfold CJK_Unified_Ideographs.
  split; intros (c & Hin & Hc); exists c; (split; [exact Hin|]).
  - apply andb_true_iff in Hc. destruct Hc as [Hlo Hhi].
    apply N.leb_le in Hlo, Hhi. split; assumption.
  - apply andb_true_iff. split; apply N.leb_le; apply Hc.
Qed.

(** The locale [extract] works with: the one of the request when it has
    one, and otherwise Chinese exactly when a character of the query is in
    the block CJK Unified Ideographs. *)
Lemma resolveLocale_spec (dto : ExtractIntentDto) :
  (forall l, query_locale dto = Some l -> IntentChain.resolveLocale dto = l)
  /\ (query_locale dto = None ->
      (IntentChain.resolveLocale dto = zh
       <-> Exists CJK_Unified_Ideographs (code_points (query dto)))
      /\ (IntentChain.resolveLocale dto = en
          <-> ~ Exists CJK_Unified_Ideographs (code_points (query dto)))).
Proof.
  unfold IntentChain.resolveLocale, IntentChain.detectLanguage. split.
  - intros l ->. reflexivity.
  - intros ->. rewrite <- chineseRegex_test_block.
    destruct (IntentChain.chineseRegex_test (query dto)); split; split;
      congruence.
Qed.

(** C2.  When the model's JSON does not pass the intent schema, [extract]
    returns the fallback intent: general_query, confidence 0.5, the resolved
    locale, no parameters, and the metadata [{fallback: true, originalQuery}].
    The resolved locale is the locale of the request when it has one;
    otherwise it is Chinese when a character of the query is in the block
    CJK Unified Ideographs, and English when none is. *)
Theorem extract_falls_back_on_invalid_intent (host : Host)
    (aiService : AiService.t) (templates : PromptTemplateService.t)
    (dto : ExtractIntentDto) (w w' : World) (response : json) :
  AiService.generateJSON aiService
    (IntentChain.composeMessages templates dto (IntentChain.resolveLocale dto))
    [] IntentChain.extract_options None w = (Return response, w') ->
  valid (SchemaValidator.validate response intentSchema) = false ->
  exists resolved : Locale,
    IntentChain.extract aiService templates dto w
    = (Return {| type := GENERAL_QUERY;
                 confidence := Fin (1 # 2);
                 locale := resolved;
                 parameters := [];
                 detectedLanguage := None;
                 metadata := Some [ (str "fallback", JBool true);
                                    (str "originalQuery", JString (query dto)) ] |},
       w')
    /\ (forall l, query_locale dto = Some l -> resolved = l)
    /\ (query_locale dto = None ->
        (resolved = zh
         <-> Exists CJK_Unified_Ideographs (code_points (query dto)))
        /\ (resolved = en
            <-> ~ Exists CJK_Unified_Ideographs (code_points (query dto)))).
Proof.
  intros Hcall Hinvalid. exists (IntentChain.resolveLocale dto).
  split; [|apply resolveLocale_spec].
  rewrite extract_outcome, Hcall.
  destruct (SchemaValidator.validate response intentSchema); [discriminate|].
  reflexivity.
Qed.

(** The model answers [{}], which has none of the required keys, to a
    request in Chinese that states its locale. *)
Lemma extract_falls_back_on_invalid_intent_witness :
  let dto := {| query := str "random query"; query_locale := Some zh;
                context := None |} in
  exists w',
    @IntentChain.extract Example.host
      (Example.aiService (Example.replying (str "{}")))
      Example.templates dto Example.initial
    = (Return (fallback_intent (str "random query") zh), w').
Proof.
  intros dto.
  destruct (extract_falls_back_on_invalid_intent Example.host
              (Example.aiService (Example.replying (str "{}")))
              Example.templates dto Example.initial (response := JObject [])
              eq_refl eq_refl)
    as (resolved & Hrun & Hstated & _).
  eexists. rewrite Hrun, (Hstated zh eq_refl). reflexivity.
Defined.

(** Whatever [generateJSON] throws, [extract] throws again. *)
Lemma extract_rethrows (host : Host) (aiService : AiService.t)
    (templates : PromptTemplateService.t) (dto : ExtractIntentDto)
    (w w' : World) (error : Error) :
  AiService.generateJSON aiService
    (IntentChain.composeMessages templates dto (IntentChain.resolveLocale dto))
    [] IntentChain.extract_options None w = (Throw error, w') ->
  IntentChain.extract aiService templates dto w = (Throw error, w').
Proof. intros Hcall. rewrite extract_outcome, Hcall. reflexivity. Qed.

(** A request that the remote service rejects makes the Anthropic provider
    throw in the same way. *)
Lemma AnthropicProvider_rejected (host : Host) (remote : Remote)
    (messages : list ChatMessage) (last : ChatMessage) (schema : jsobject)
    (options : LLMOptions) (rejection : Error) (w : World) :
  (forall request, anthropic_messages_create request = inl rejection) ->
  AnthropicProvider.generateJSON (messages ++ [last]) schema options w
  = (Throw {| message := str "anthropic GenerateJSON: " ++ message rejection |}, w).
Proof.
  intros Hreply.
  unfold AnthropicProvider.generateJSON, try_catch.
  rewrite append_to_last_snoc.
  destruct (AnthropicProvider.convertMessages _) as [system anthropicMessages].
  rewrite Hreply. reflexivity.
Qed.

(** [extract] throws what the default provider throws, the call of
    [generateJSON] recorded. *)
Lemma extract_over_provider (host : Host) (provider : ILLMProvider)
    (aiService : AiService.t) (templates : PromptTemplateService.t)
    (dto : ExtractIntentDto) (error : Error) (w : World) :
  AiService.providers aiService (AiService.defaultProvider aiService)
  = Some provider ->
  (forall front last options w1,
      exists w', provider_generateJSON provider (front ++ [last]) [] options w1
                 = (Throw error, w')
                 /\ generateJSON_calls w' = generateJSON_calls w1) ->
  exists w',
    IntentChain.extract aiService templates dto w = (Throw error, w')
    /\ generateJSON_calls w'
       = generateJSON_calls w
         ++ [IntentChain.composeMessages templates dto (IntentChain.resolveLocale dto)].
Proof.
  intros Hprovider Hthrows.
  set (messages := IntentChain.composeMessages templates dto
                     (IntentChain.resolveLocale dto)).
  assert (Hshape : exists front last, messages = front ++ [last]).
  { unfold messages, IntentChain.composeMessages.
    eexists (_ ++ _), _. rewrite <- app_assoc. reflexivity. }
  destruct Hshape as (front & last & Hshape).
  set (w1 := {| generateJSON_calls := generateJSON_calls w ++ [messages];
                anthropic_usage := anthropic_usage w;
                openai_usage := openai_usage w |}).
  destruct (Hthrows front last
              {| model := nullish (opt_model IntentChain.extract_options)
                                  (AiService.defaultModel aiService);
                 temperature := opt_temperature IntentChain.extract_options;
                 maxTokens := opt_maxTokens IntentChain.extract_options;
                 topP := None; frequencyPenalty := None; presencePenalty := None;
                 stop := None; stream := None |}
              w1) as (w' & Hrun & Hlog).
  exists w'. split; [|exact Hlog].
  apply extract_rethrows. fold messages.
  unfold AiService.generateJSON, AiService.getProvider, bind, modify.
  change (nullish None (AiService.defaultProvider aiService))
    with (AiService.defaultProvider aiService).
  rewrite Hprovider. unfold ret.
  fold w1. rewrite Hshape. exact Hrun.
Qed.

(** C5 fails on the code.  When the text the backend returns is rejected
    by [JSON.parse], the provider, Anthropic or OpenAI, throws its name and
    "GenerateJSON: " followed by the message of the syntax error, and the
    catch block of [extract] throws that error again, after the one call of
    [generateJSON]: no fallback intent is made, although
    [createFallbackIntent] is documented as the intent made "when
    extraction or validation fails".  A request that the backend rejects (a
    transport-level failure) comes out of [extract] in the same way. *)
Theorem extract_raises_on_malformed_output (host : Host) (remote : Remote)
    (aiService : AiService.t) (templates : PromptTemplateService.t)
    (dto : ExtractIntentDto) (w : World) (text : jsstring) (syntaxError : Error) :
  JSON_parse text = inl syntaxError ->
  (AiService.providers aiService (AiService.defaultProvider aiService)
   = Some AnthropicProvider.provider ->
   forall response : AnthropicMessage,
     (forall request, anthropic_messages_create request = inr response) ->
     AnthropicProvider.extractContent response = text ->
     exists w',
       IntentChain.extract aiService templates dto w
       = (Throw {| message := str "anthropic GenerateJSON: "
                              ++ message syntaxError |}, w')
       /\ generateJSON_calls w'
          = generateJSON_calls w
            ++ [IntentChain.composeMessages templates dto
                  (IntentChain.resolveLocale dto)])
  /\ (AiService.providers aiService (AiService.defaultProvider aiService)
      = Some OpenAIProvider.provider ->
      forall response : ChatCompletion,
        (forall request, openai_chat_completions_create request = inr response) ->
        cc_first_content response = Some text ->
        truthy_string text = true ->
        exists w',
          IntentChain.extract aiService templates dto w
          = (Throw {| message := str "openai GenerateJSON: "
                                 ++ message syntaxError |}, w')
          /\ generateJSON_calls w'
             = generateJSON_calls w
               ++ [IntentChain.composeMessages templates dto
                     (IntentChain.resolveLocale dto)])
  /\ (AiService.providers aiService (AiService.defaultProvider aiService)
      = Some AnthropicProvider.provider ->
      forall rejection : Error,
        (forall request, anthropic_messages_create request = inl rejection) ->
        exists w',
          IntentChain.extract aiService templates dto w
          = (Throw {| message := str "anthropic GenerateJSON: "
                                 ++ message rejection |}, w')
          /\ generateJSON_calls w'
             = generateJSON_calls w
               ++ [IntentChain.composeMessages templates dto
                     (IntentChain.resolveLocale dto)]).
Proof.
  intros Hparse. split; [|split].
  - intros Hprovider response Hreply Htext.
    apply extract_over_provider with (provider := AnthropicProvider.provider);
      [exact Hprovider|].
    intros front last options w1.
    cbn [provider_generateJSON AnthropicProvider.provider].
    apply AnthropicProvider_malformed with (response := response);
      [exact Hreply|now rewrite Htext].
  - intros Hprovider response Hreply Htext Htruthy.
    apply extract_over_provider with (provider := OpenAIProvider.provider);
      [exact Hprovider|].
    intros front last options w1.
    cbn [provider_generateJSON OpenAIProvider.provider].
    apply OpenAIProvider_malformed with (response := response) (text := text);
      assumption.
  - intros Hprovider rejection Hreply.
    apply extract_over_provider with (provider := AnthropicProvider.provider);
      [exact Hprovider|].
    intros front last options w1. exists w1. split; [|reflexivity].
    cbn [provider_generateJSON AnthropicProvider.provider].
    now apply AnthropicProvider_rejected.
Qed.

(** The backend answers with a sentence instead of JSON. *)
Lemma extract_raises_on_malformed_output_witness :
  let dto := {| query := str "I want to visit Auckland for 3 days";
                query_locale := None; context := None |} in
  let outcome :=
    @IntentChain.extract Example.host
      (Example.aiService (Example.replying (str "Sorry, I cannot help with that.")))
      Example.templates dto Example.initial in
  fst outcome
  = Throw {| message := str "anthropic GenerateJSON: Unexpected token in JSON" |}
  /\ List.length (generateJSON_calls (snd outcome)) = 1%nat.
Proof.
  intros dto outcome.
  destruct (proj1 (@extract_raises_on_malformed_output Example.host
                     (Example.replying (str "Sorry, I cannot help with that."))
                     (Example.aiService
                        (Example.replying (str "Sorry, I cannot help with that.")))
                     Example.templates dto Example.initial
                     (str "Sorry, I cannot help with that.")
                     {| message := str "Unexpected token in JSON" |}
                     eq_refl)
              eq_refl
              {| am_content := [TextBlock (str "Sorry, I cannot help with that.")];
                 am_model := str "claude-3-5-sonnet-20241022";
                 am_input_tokens := num 120;
                 am_output_tokens := num 40 |}
              (fun _ => eq_refl) eq_refl)
    as (w' & Hrun & Hlog).
  unfold outcome. rewrite Hrun. cbn [fst snd]. rewrite Hlog.
  split; reflexivity.
Defined.

(** The same run, against what the specification asks for: what [extract]
    yields is not the fallback intent. *)
Lemma extract_malformed_output_example :
  let dto := {| query := str "I want to visit Auckland for 3 days";
                query_locale := None; context := None |} in
  let outcome :=
    fst (@IntentChain.extract Example.host
           (Example.aiService (Example.replying (str "Sorry, I cannot help with that.")))
           Example.templates dto Example.initial) in
  JSON_parse (Host := Example.host) (str "Sorry, I cannot help with that.")
  = inl {| message := str "Unexpected token in JSON" |}
  /\ outcome
     = Throw {| message := str "anthropic GenerateJSON: Unexpected token in JSON" |}
  /\ outcome <> Return (fallback_intent (query dto) en).
Proof.
  vm_compute. repeat split; discriminate.
Qed.

(** C6, as the code has it.  With no locale in the request, a query is
    handled in Chinese exactly when one of its characters lies in the
    block CJK Unified Ideographs, U+4E00 to U+9FFF, and in English
    otherwise: so is every query made of ASCII characters, and so is a
    query whose ideographs all lie in other blocks. *)
Theorem detectLanguage_resolves_locale (dto : ExtractIntentDto) :
  query_locale dto = None ->
  (IntentChain.resolveLocale dto = zh
   <-> Exists CJK_Unified_Ideographs (code_points (query dto)))
  /\ (IntentChain.resolveLocale dto = en
      <-> Forall (fun cp => ~ CJK_Unified_Ideographs cp) (code_points (query dto)))
  /\ (Forall ASCII (query dto) -> IntentChain.resolveLocale dto = en).
Proof.
  intros Hnone.
  destruct (proj2 (resolveLocale_spec dto) Hnone) as [Hzh Hen].
  split; [exact Hzh|]. split.
  - rewrite Hen. rewrite <- Forall_Exists_neg. reflexivity.
  - intros Hascii. apply Hen. rewrite code_points_block.
    intros Hblock. apply Exists_exists in Hblock.
    destruct Hblock as (c & Hin & Hlo & _).
    rewrite Forall_forall in Hascii. specialize (Hascii c Hin).
    unfold ASCII in Hascii. lia.
Qed.

(** The query of the test suite (U+63A8 U+8350, "recommend") and its
    English counterpart. *)
Lemma detectLanguage_resolves_locale_witness :
  IntentChain.resolveLocale
    {| query := [25512; 33616]%N; query_locale := None; context := None |} = zh
  /\ IntentChain.resolveLocale
       {| query := str "Hello!"; query_locale := None; context := None |} = en.
Proof.
  split.
  - apply (detectLanguage_resolves_locale
             {| query := [25512; 33616]%N; query_locale := None; context := None |}
             eq_refl).
    apply Exists_cons_hd. unfold CJK_Unified_Ideographs. lia.
  - apply (detectLanguage_resolves_locale
             {| query := str "Hello!"; query_locale := None; context := None |}
             eq_refl).
    repeat constructor.
Defined.

(** C6 as the specification states it fails: U+3400 (Extension A) and
    U+20000 (Extension B, the surrogates D840 DC00) are CJK ideographs, and
    a query made of either one is handled in English. *)
Lemma detectLanguage_ideograph_counterexample :
  let extensionA :=
    {| query := [13312]%N; query_locale := None; context := None |} in
  let extensionB :=
    {| query := [55360; 56320]%N; query_locale := None; context := None |} in
  code_points (query extensionA) = [13312]%N
  /\ Exists CJK_ideograph (code_points (query extensionA))
  /\ IntentChain.resolveLocale extensionA = en
  /\ code_points (query extensionB) = [131072]%N
  /\ Exists CJK_ideograph (code_points (query extensionB))
  /\ IntentChain.resolveLocale extensionB = en.
Proof.
  cbv zeta. repeat split.
  - apply Exists_cons_hd. apply Exists_cons_hd. cbn [fst snd]. lia.
  - apply Exists_cons_hd. do 3 apply Exists_cons_tl. apply Exists_cons_hd.
    cbn [fst snd]. lia.
Qed.

(** C7.  An intent whose confidence is below 0.7 is not actionable, whatever
    its type and its parameters. *)
Theorem isActionable_confidence_floor (intent : IntentResult) :
  num_ltb (confidence intent) (Fin (7 # 10)) = true ->
  IntentChain.isActionable intent = false.
Proof.
  intros Hlow. unfold IntentChain.isActionable. rewrite Hlow. reflexivity.
Qed.

(** The low-confidence intent of the test suite. *)
Lemma isActionable_confidence_floor_witness :
  IntentChain.isActionable
    {| type := CREATE_ITINERARY; confidence := Fin (6 # 10); locale := en;
       parameters := [(str "destination", JString (str "Auckland"))];
       detectedLanguage := None; metadata := None |} = false.
Proof.
  apply isActionable_confidence_floor. reflexivity.
Defined.

(** ** Post-processing of a validated itinerary *)

Section PostProcessing.
Context {host : Host}.

Lemma sortDay_activities (d : ItineraryDay) :
  activities (ItineraryChain.sortDay d)
  = Array_sort (compare_keys timeOfDay) (activities d).
Proof. reflexivity. Qed.

Lemma optimizeItinerary_days (it : GeneratedItinerary) :
  days (ItineraryChain.optimizeItinerary it)
  = map ItineraryChain.sortDay (days it).
Proof.
  unfold ItineraryChain.optimizeItinerary. cbn [totalCost].
  destruct (totalCost it); reflexivity.
Qed.

Lemma calculateTotalCost_days (a b : GeneratedItinerary) :
  days a = days b ->
  ItineraryChain.calculateTotalCost a = ItineraryChain.calculateTotalCost b.
Proof. unfold ItineraryChain.calculateTotalCost. now intros ->. Qed.

Lemma optimizeItinerary_totalCost_absent (it : GeneratedItinerary) :
  totalCost it = None ->
  totalCost (ItineraryChain.optimizeItinerary it)
  = Some (ItineraryChain.calculateTotalCost (ItineraryChain.optimizeItinerary it)).
Proof.
  intros Habsent.
  assert (Hdays := optimizeItinerary_days it).
  unfold ItineraryChain.optimizeItinerary in *. cbn [totalCost] in *.
  rewrite Habsent in *. reflexivity.
Qed.

Lemma optimizeItinerary_totalCost_present (it : GeneratedItinerary) (c : Money) :
  totalCost it = Some c ->
  totalCost (ItineraryChain.optimizeItinerary it) = Some c.
Proof.
  intros Hpresent. unfold ItineraryChain.optimizeItinerary. cbn [totalCost].
  rewrite Hpresent. reflexivity.
Qed.

Lemma fold_activities (acts : list ItineraryActivity)
  (acc : PrimFloat.float * jsstring) :
  fold_left ItineraryChain.addActivity acts acc
  = fold_left addMoney
      (flat_map (fun a => match cost a with Some c => [c] | None => [] end) acts)
      acc.
Proof.
  revert acc. induction acts as [|a acts IH]; intros acc; [reflexivity|].
  simpl. rewrite IH. unfold ItineraryChain.addActivity at 1.
  destruct (cost a); reflexivity.
Qed.

Lemma fold_days (ds : list ItineraryDay) (acc : PrimFloat.float * jsstring) :
  fold_left (fun acc d => fold_left ItineraryChain.addActivity (activities d) acc)
            ds acc
  = fold_left addMoney (flat_map costs_of_day ds) acc.
Proof.
  revert acc. induction ds as [|d ds IH]; intros acc; [reflexivity|].
  simpl. rewrite IH, fold_left_app, fold_activities. reflexivity.
Qed.

Lemma fold_addMoney_total (l : list Money) (acc : PrimFloat.float * jsstring) :
  fst (fold_left addMoney l acc) = fold_left Double.add (map amount l) (fst acc).
Proof.
  revert acc. induction l as [|c l IH]; intros acc; [reflexivity|].
  simpl fold_left. rewrite IH. reflexivity.
Qed.

Lemma last_cons {A} (x d : A) (l : list A) : last (x :: l) d = last l x.
Proof.
  revert x d. induction l as [|y l IH]; intros x d; [reflexivity|].
  change (last (x :: y :: l) d) with (last (y :: l) d).
  rewrite IH. symmetry. apply IH.
Qed.

Lemma fold_addMoney_currency (l : list Money)
  (acc : PrimFloat.float * jsstring) :
  snd (fold_left addMoney l acc) = last (map currency l) (snd acc).
Proof.
  revert acc. induction l as [|c l IH]; intros acc; [reflexivity|].
  simpl fold_left. rewrite IH. cbn [map]. rewrite last_cons. reflexivity.
Qed.

Lemma calculateTotalCost_amount (it : GeneratedItinerary) :
  amount (ItineraryChain.calculateTotalCost it)
  = Math_round (double_sum (map amount (costs it))).
Proof.
  unfold ItineraryChain.calculateTotalCost, double_sum. rewrite fold_days.
  fold (costs it).
  pose proof (fold_addMoney_total (costs it) (PrimFloat.zero, str "NZD")) as H.
  destruct (fold_left addMoney (costs it) (PrimFloat.zero, str "NZD"))
    as [total cur].
  cbn [fst] in H. rewrite <- H. reflexivity.
Qed.

Lemma calculateTotalCost_currency (it : GeneratedItinerary) :
  currency (ItineraryChain.calculateTotalCost it)
  = last (map currency (costs it)) (str "NZD").
Proof.
  unfold ItineraryChain.calculateTotalCost. rewrite fold_days.
  fold (costs it).
  pose proof (fold_addMoney_currency (costs it) (PrimFloat.zero, str "NZD")) as H.
  destruct (fold_left addMoney (costs it) (PrimFloat.zero, str "NZD"))
    as [total cur].
  exact H.
Qed.

(** Sorting the days permutes the costs. *)
Lemma costs_Permutation (it : GeneratedItinerary) :
  Permutation (costs it) (costs (ItineraryChain.optimizeItinerary it)).
Proof.
  unfold costs. rewrite optimizeItinerary_days.
  induction (days it) as [|d ds IH]; simpl; [apply perm_nil|].
  apply Permutation_app; [|exact IH].
  unfold costs_of_day. apply Permutation_flat_map.
  rewrite sortDay_activities. apply Array_sort_Permutation.
Qed.

End PostProcessing.

(** ** Order of the activities *)

Lemma split_without_separator (sep : code_unit) (s : jsstring) :
  ~ In sep s -> split sep s = [s].
Proof.
  induction s as [|c s IH]; intros Hnot; [reflexivity|].
  simpl. destruct (N.eqb_spec c sep) as [->|Hne].
  - exfalso. apply Hnot. now left.
  - rewrite IH; [reflexivity|]. intros Hin. apply Hnot. now right.
Qed.

Lemma split_at_separator (sep : code_unit) (before after : jsstring) :
  ~ In sep before ->
  split sep (before ++ sep :: after) = before :: split sep after.
Proof.
  induction before as [|c before IH]; intros Hnot; simpl.
  - now rewrite N.eqb_refl.
  - destruct (N.eqb_spec c sep) as [->|Hne].
    + exfalso. apply Hnot. now left.
    + rewrite IH; [reflexivity|]. intros Hin. apply Hnot. now right.
Qed.

(** A time "HH:MM" is parsed as hours * 60 + minutes. *)
Lemma parseTime_hours_minutes (host : Host) (hh mm : jsstring) :
  ~ In colon hh -> ~ In colon mm -> Number_of mm <> NaN ->
  num_eq (ItineraryChain.parseTime (hh ++ colon :: mm))
         (num_add (num_mul (Number_of hh) (num 60)) (Number_of mm)).
Proof.
  intros Hhh Hmm Hnum. unfold ItineraryChain.parseTime.
  rewrite split_at_separator, split_without_separator by assumption.
  cbn [map nth nth_error].
  destruct (truthy_number (Number_of mm)) eqn:Htruthy; [reflexivity|].
  apply num_add_Proper; [reflexivity|].
  destruct (Number_of mm) as [| | |q]; try discriminate; try congruence.
  simpl in Htruthy. apply negb_false_iff, Qeq_bool_iff in Htruthy.
  simpl. now symmetry.
Qed.

(** C3, as the code has it.  When the time of every activity parses to a
    number (as every "HH:MM" does, parsed as hours * 60 + minutes), the
    activities of each day are, after post-processing, in non-decreasing
    order of parsed time, and those of equal parsed time keep the order
    they had. *)
Theorem activities_sorted_by_time (host : Host) (it : GeneratedItinerary) :
  (forall d a, In d (days it) -> In a (activities d) -> timeOfDay a <> NaN) ->
  Forall2 (fun d d' => sorted_by_time (activities d')
                       /\ keeps_ties (activities d) (activities d'))
          (days it) (days (ItineraryChain.optimizeItinerary it))
  /\ (forall hh mm : jsstring,
        ~ In colon hh -> ~ In colon mm -> Number_of mm <> NaN ->
        num_eq (ItineraryChain.parseTime (hh ++ colon :: mm))
               (num_add (num_mul (Number_of hh) (num 60)) (Number_of mm))).
Proof.
  intros Hparse. split; [|apply parseTime_hours_minutes].
  rewrite optimizeItinerary_days.
  induction (days it) as [|d ds IH]; [constructor|].
  cbn [map]. constructor.
  - rewrite sortDay_activities. split.
    + apply Array_sort_sorted. apply Forall_forall. intros a Ha.
      apply (Hparse d a); [now left|exact Ha].
    + intros k. apply Array_sort_stable.
  - apply IH. intros d0 a Hd0 Ha. apply (Hparse d0 a); [now right|exact Ha].
Qed.

(** A day given as 14:00, 09:00, 09:00. *)
Lemma activities_sorted_by_time_witness :
  exists it,
    Example.validated
      (Example.itinerary
         [Example.day 1 "2025-12-01"
            [Example.activity "14:00" None;
             Example.activity "09:00" (Some (32 # 1, "NZD"%string));
             Example.activity "09:00" None]])
    = Some it
    /\ Forall2 (fun d d' => @sorted_by_time Example.host (activities d')
                            /\ @keeps_ties Example.host (activities d) (activities d'))
               (days it) (days (@ItineraryChain.optimizeItinerary Example.host it)).
Proof.
  eexists. split; [vm_compute; reflexivity|].
  apply (activities_sorted_by_time Example.host).
  intros d a [<-|[]] Ha. cbn [activities] in Ha.
  destruct Ha as [<-|[<-|[<-|[]]]]; vm_compute; discriminate.
Defined.

(** C3 as the specification states it fails: the schema accepts any string
    as a time, a time that is not a number compares as equal to every
    other, and the day 10:00, soon, 09:00 comes out as it went in, 10:00
    before 09:00. *)
Lemma activities_sorted_by_time_counterexample :
  exists it d,
    Example.validated
      (Example.itinerary
         [Example.day 1 "2025-12-01"
            [Example.activity "10:00" None;
             Example.activity "soon" None;
             Example.activity "09:00" None]])
    = Some it
    /\ days (@ItineraryChain.optimizeItinerary Example.host it) = [d]
    /\ map time (activities d) = [str "10:00"; str "soon"; str "09:00"]
    /\ ~ @sorted_by_time Example.host (activities d).
Proof.
  eexists. eexists.
  split; [vm_compute; reflexivity|].
  split; [vm_compute; reflexivity|].
  split; [vm_compute; reflexivity|].
  intros Hsorted. cbn [activities] in Hsorted.
  inversion Hsorted as [|? ? _ Hfirst]; subst.
  inversion Hfirst as [|? ? _ Hrest]; subst.
  inversion Hrest as [|? ? Hlate _]; subst.
  vm_compute in Hlate. discriminate.
Qed.

(** ** The computed total cost *)

(** C4, as the code has it.  When the validated itinerary has no
    [totalCost], post-processing sets one whose amount is the total of the
    costs that the activities carry, rounded to the nearest integer ([z]
    below, within one half of the total), where the total is the sum the
    code computes in doubles: the amounts are added one after the other, in
    the order of the days and, inside a day, of the sorted activities, and
    every addition is rounded to the nearest double.  The costs added are
    those of the validated itinerary, each one once; an activity without a
    cost adds nothing. *)
Theorem totalCost_is_rounded_double_sum (host : Host) (it : GeneratedItinerary) :
  totalCost it = None ->
  exists total : Money,
    totalCost (ItineraryChain.optimizeItinerary it) = Some total
    /\ amount total
       = Math_round
           (double_sum (map amount (costs (ItineraryChain.optimizeItinerary it))))
    /\ Permutation (costs it) (costs (ItineraryChain.optimizeItinerary it))
    /\ (forall x : Q,
          double_sum (map amount (costs (ItineraryChain.optimizeItinerary it)))
          = Fin x ->
          exists z : Z,
            amount total = num z
            /\ (x - (1 # 2) < inject_Z z)%Q /\ (inject_Z z <= x + (1 # 2))%Q).
Proof.
  intros Habsent.
  exists (ItineraryChain.calculateTotalCost (ItineraryChain.optimizeItinerary it)).
  split; [now apply optimizeItinerary_totalCost_absent|].
  pose proof (calculateTotalCost_amount (ItineraryChain.optimizeItinerary it))
    as Hamount.
  split; [exact Hamount|].
  split; [apply costs_Permutation|].
  intros x Hx. rewrite Hamount, Hx.
  destruct (Math_round_nearest x) as (z & Hz & Hlo & Hhi).
  exists z. repeat split; assumption.
Qed.

(** Two days; costs 32.4 and 17.2 on the first, none on the last activity:
    17.2 + 32.4 is 49.6 in doubles, and the amount is 50. *)
Lemma totalCost_is_rounded_double_sum_witness :
  exists it,
    Example.validated
      (Example.itinerary
         [Example.day 1 "2025-12-01"
            [Example.activity "14:00" (Some (324 # 10, "NZD"%string));
             Example.activity "09:00" (Some (172 # 10, "NZD"%string))];
          Example.day 2 "2025-12-02"
            [Example.activity "10:00" None]])
    = Some it
    /\ exists total,
         totalCost (@ItineraryChain.optimizeItinerary Example.host it) = Some total
         /\ amount total = num 50
         /\ map amount (costs (@ItineraryChain.optimizeItinerary Example.host it))
            = [Fin (172 # 10); Fin (324 # 10)].
Proof.
  eexists. split; [vm_compute; reflexivity|].
  match goal with
  | |- exists total, totalCost (ItineraryChain.optimizeItinerary ?it) = _ /\ _ =>
      destruct (totalCost_is_rounded_double_sum Example.host it eq_refl)
        as (total & Htotal & Hamount & _)
  end.
  exists total. split; [exact Htotal|].
  split; [|vm_compute; reflexivity].
  rewrite Hamount. vm_compute. reflexivity.
Defined.

(** C4 as the specification states it fails: the amount is not the exact
    sum rounded.  With the costs 0.7, 1.4 and 1.4 the exact sum is 3.5,
    which rounds to 4; the code adds doubles, reaches 3.4999999999999996
    and sets 3. *)
Lemma totalCost_rounding_counterexample :
  exists it total,
    Example.validated
      (Example.itinerary
         [Example.day 1 "2025-12-01"
            [Example.activity "09:00" (Some (7 # 10, "NZD"%string));
             Example.activity "10:00" (Some (14 # 10, "NZD"%string));
             Example.activity "11:00" (Some (14 # 10, "NZD"%string))]])
    = Some it
    /\ totalCost it = None
    /\ totalCost (@ItineraryChain.optimizeItinerary Example.host it) = Some total
    /\ amount total = num 3
    /\ Math_round (sum (map amount (costs it))) = num 4
    /\ double_sum (map amount (costs it))
       = Fin (7881299347898367 # 2251799813685248).
Proof.
  eexists. eexists.
  split; [vm_compute; reflexivity|].
  split; [reflexivity|].
  split; [vm_compute; reflexivity|].
  split; [vm_compute; reflexivity|].
  split; vm_compute; reflexivity.
Qed.

(** The other way round: with the costs 1 and 0.49999999999999994 the exact
    sum rounds to 1; the sum of the two doubles is 1.5 and the amount is 2. *)
Lemma totalCost_rounding_up_example :
  exists it total,
    Example.validated
      (Example.itinerary
         [Example.day 1 "2025-12-01"
            [Example.activity "09:00" (Some (1, "NZD"%string));
             Example.activity "10:00"
               (Some (49999999999999994 # 100000000000000000, "NZD"%string))]])
    = Some it
    /\ totalCost (@ItineraryChain.optimizeItinerary Example.host it) = Some total
    /\ amount total = num 2
    /\ Math_round (sum (map amount (costs it))) = num 1
    /\ num_eq (double_sum (map amount (costs it))) (Fin (3 # 2)).
Proof.
  eexists. eexists.
  split; [vm_compute; reflexivity|].
  split; [vm_compute; reflexivity|].
  split; [vm_compute; reflexivity|].
  split; vm_compute; reflexivity.
Qed.

(** C9, as the code has it.  When the validated itinerary has no
    [totalCost], the currency of the computed one is the currency of the
    last cost met, going through the days in order and through the
    activities of a day in their order after the sort, empty or not; it is
    "NZD" when no activity carries a cost. *)
Theorem totalCost_currency_is_last (host : Host) (it : GeneratedItinerary) :
  totalCost it = None ->
  exists total : Money,
    totalCost (ItineraryChain.optimizeItinerary it) = Some total
    /\ currency total
       = last (map currency (costs (ItineraryChain.optimizeItinerary it)))
              (str "NZD")
    /\ (costs it = [] -> currency total = str "NZD").
Proof.
  intros Habsent.
  exists (ItineraryChain.calculateTotalCost (ItineraryChain.optimizeItinerary it)).
  split; [now apply optimizeItinerary_totalCost_absent|].
  split; [apply calculateTotalCost_currency|].
  intros Hnone. rewrite calculateTotalCost_currency.
  pose proof (costs_Permutation it) as Hperm. rewrite Hnone in Hperm.
  apply Permutation_nil in Hperm. rewrite Hperm. reflexivity.
Qed.

(** A day with a cost in USD at 09:00 and one in EUR at 10:00. *)
Lemma totalCost_currency_is_last_witness :
  exists it,
    Example.validated
      (Example.itinerary
         [Example.day 1 "2025-12-01"
            [Example.activity "09:00" (Some (10 # 1, "USD"%string));
             Example.activity "10:00" (Some (20 # 1, "EUR"%string))]])
    = Some it
    /\ exists total,
         totalCost (@ItineraryChain.optimizeItinerary Example.host it) = Some total
         /\ currency total = str "EUR".
Proof.
  eexists. split; [vm_compute; reflexivity|].
  match goal with
  | |- exists total, totalCost (ItineraryChain.optimizeItinerary ?it) = _ /\ _ =>
      destruct (totalCost_currency_is_last Example.host it eq_refl)
        as (total & Htotal & Hcurrency & _)
  end.
  exists total. split; [exact Htotal|].
  rewrite Hcurrency. vm_compute. reflexivity.
Defined.

(** C9 as the specification states it fails: with a cost in USD followed by
    a cost in EUR the computed currency is EUR, and the first currency that
    is not empty is USD. *)
Lemma totalCost_currency_counterexample :
  exists it total,
    Example.validated
      (Example.itinerary
         [Example.day 1 "2025-12-01"
            [Example.activity "09:00" (Some (10 # 1, "USD"%string));
             Example.activity "10:00" (Some (20 # 1, "EUR"%string))]])
    = Some it
    /\ totalCost it = None
    /\ totalCost (@ItineraryChain.optimizeItinerary Example.host it) = Some total
    /\ currency total = str "EUR"
    /\ first_nonempty_currency (costs it) = str "USD"
    /\ currency total <> first_nonempty_currency (costs it).
Proof.
  eexists. eexists.
  split; [vm_compute; reflexivity|].
  split; [reflexivity|].
  split; [vm_compute; reflexivity|].
  split; [reflexivity|].
  split; [reflexivity|].
  vm_compute. discriminate.
Qed.

(** ** What post-processing leaves alone *)

(** C10.  Post-processing changes the order of the activities inside a day
    and sets [totalCost] when there was none.  Everything else is as it
    was: the texts, the dates, the recommendations, the days in number and
    order with each one's number, date, meals, accommodation and notes, the
    activities of each day as a multiset, and a [totalCost] that was there. *)
Theorem optimizeItinerary_frame (host : Host) (it : GeneratedItinerary) :
  let it' := ItineraryChain.optimizeItinerary it in
  title it' = title it
  /\ summary it' = summary it
  /\ destination it' = destination it
  /\ startDate it' = startDate it
  /\ endDate it' = endDate it
  /\ recommendations it' = recommendations it
  /\ Forall2 (fun d d' => day d' = day d
                          /\ date d' = date d
                          /\ meals d' = meals d
                          /\ accommodation d' = accommodation d
                          /\ notes d' = notes d
                          /\ Permutation (activities d) (activities d'))
             (days it) (days it')
  /\ (forall c : Money, totalCost it = Some c -> totalCost it' = Some c).
Proof.
  intros it'.
  assert (Hdays : days it' = map ItineraryChain.sortDay (days it))
    by apply optimizeItinerary_days.
  assert (Hfields : title it' = title it /\ summary it' = summary it
                    /\ destination it' = destination it
                    /\ startDate it' = startDate it /\ endDate it' = endDate it
                    /\ recommendations it' = recommendations it).
  { unfold it', ItineraryChain.optimizeItinerary. cbn [totalCost].
    destruct (totalCost it); repeat split; reflexivity. }
  destruct Hfields as (? & ? & ? & ? & ? & ?).
  repeat (split; [assumption|]). split.
  - rewrite Hdays. clear. induction (days it) as [|d ds IH]; [constructor|].
    cbn [map]. constructor; [|exact IH].
    repeat (split; [reflexivity|]).
    rewrite sortDay_activities. apply Array_sort_Permutation.
  - intros c Hc. now apply optimizeItinerary_totalCost_present.
Qed.

(** ** Statistics *)

(** C8 fails on the code: with no day the two averages are quotients by
    zero.  On the empty itinerary of the test suite, whose total cost is
    2000, the average number of activities is NaN and the average daily
    budget is Infinity. *)
Theorem getStatistics_empty_days :
  let it := {| title := {| bt_en := str "Nature & Adventure"; bt_zh := [] |};
               summary := {| bt_en := str "Outdoor focused trip"; bt_zh := [] |};
               destination := str "Queenstown";
               startDate := str "2025-12-10";
               endDate := str "2025-12-14";
               days := [];
               totalCost := Some {| amount := num 2000; currency := str "NZD" |};
               recommendations := [] |} in
  ItineraryChain.getStatistics it
  = {| totalDays := num 0;
       totalActivities := num 0;
       stat_totalCost := num 2000;
       avgActivitiesPerDay := NaN;
       avgDailyBudget := PosInfinity |}.
Proof. reflexivity. Qed.

(** With no day the average number of activities is NaN for every
    itinerary, and the average daily budget is NaN or Infinity. *)
Lemma getStatistics_no_day (it : GeneratedItinerary) :
  days it = [] ->
  avgActivitiesPerDay (ItineraryChain.getStatistics it) = NaN
  /\ avgDailyBudget (ItineraryChain.getStatistics it) <> num 0.
Proof.
  intros Hnone. unfold ItineraryChain.getStatistics, ItineraryChain.countActivities.
  rewrite Hnone. split; [reflexivity|].
  cbn [avgDailyBudget].
  destruct (totalCost it) as [c|]; [|discriminate].
  destruct (amount c) as [| | |x]; try discriminate.
  cbn [truthy_number]. destruct (Qeq_bool x 0) eqn:E; [discriminate|].
  cbn [negb length_of List.length]. unfold num_div, num, Qsign.
  change (inject_Z (Z.of_nat 0) ?= 0)%Q with Eq.
  destruct (x ?= 0)%Q; discriminate.
Qed.

(* ================================================================== *)
(** * Further properties of the chains and of what they call *)

(** ** The quality score *)

Lemma num_sub_Fin (x : Q) (k : Z) : num_sub (Fin x) (num k) = Fin (x + - inject_Z k).
Proof. reflexivity. Qed.

(** Whatever the durations are, the deduction for a day takes nothing or
    10 or 15 from a finite score. *)
Lemma deductForDay_finite (x : Q) (d : ItineraryDay) :
  exists y : Q, ItineraryChain.deductForDay (Fin x) d = Fin y /\ (y <= x)%Q.
Proof.
  unfold ItineraryChain.deductForDay.
  destruct (num_gtb _ _).
  - eexists. split; [apply num_sub_Fin|]. unfold inject_Z. lra.
  - destruct (num_ltb _ _).
    + eexists. split; [apply num_sub_Fin|]. unfold inject_Z. lra.
    + exists x. split; [reflexivity|lra].
Qed.

Lemma deductions_finite (ds : list ItineraryDay) (x : Q) :
  exists y : Q, fold_left ItineraryChain.deductForDay ds (Fin x) = Fin y
                /\ (y <= x)%Q.
Proof.
  revert x. induction ds as [|d ds IH]; intros x.
  - exists x. split; [reflexivity|lra].
  - simpl. destruct (deductForDay_finite x d) as (y & -> & Hy).
    destruct (IH y) as (z & -> & Hz). exists z. split; [reflexivity|lra].
Qed.

Lemma clamp_0_100 (x : Q) :
  exists q : Q, Math_max (num 0) (Math_min (num 100) (Fin x)) = Fin q
                /\ (0 <= q)%Q /\ (q <= 100)%Q.
Proof.
  unfold Math_max, Math_min, num. cbn [is_NaN orb].
  destruct (num_ltb (Fin x) (Fin (inject_Z 100))) eqn:Hhi; cbn [is_NaN orb].
  - apply num_ltb_Fin in Hhi.
    destruct (num_ltb (Fin (inject_Z 0)) (Fin x)) eqn:Hlo.
    + apply num_ltb_Fin in Hlo. exists x. unfold inject_Z in *.
      split; [reflexivity|]. split; lra.
    + exists (inject_Z 0). unfold inject_Z. split; [reflexivity|]. split; lra.
  - exists (inject_Z 100). split; [reflexivity|]. unfold inject_Z. split; lra.
Qed.

(** X1.  The quality score is a finite number between 0 and 100, whatever
    the itinerary: deductions start from 100 and only lower the score, and
    the result is clamped. *)
Theorem estimateQuality_bounds (it : GeneratedItinerary) :
  exists q : Q, ItineraryChain.estimateQuality it = Fin q
                /\ (0 <= q)%Q /\ (q <= 100)%Q.
Proof.
  unfold ItineraryChain.estimateQuality.
  match goal with
  | |- context [fold_left ItineraryChain.deductForDay _ ?s] =>
      assert (Hstart : exists x : Q, s = Fin x) by
        (destruct (num_gtb _ _); eexists; [apply num_sub_Fin|reflexivity])
  end.
  destruct Hstart as (x & ->).
  destruct (deductions_finite (days it) x) as (y & -> & _).
  destruct (num_ltb _ _).
  - rewrite num_sub_Fin. apply clamp_0_100.
  - apply clamp_0_100.
Qed.

(** X2.  An itinerary without days scores 100: the average and the variance
    are quotients by zero, hence NaN, and no comparison with NaN deducts
    anything. *)
Theorem estimateQuality_no_day (it : GeneratedItinerary) :
  days it = [] -> ItineraryChain.estimateQuality it = num 100.
Proof.
  intros Hnone. unfold ItineraryChain.estimateQuality. rewrite Hnone. reflexivity.
Qed.

(** The empty-days itinerary of the test suite. *)
Lemma estimateQuality_no_day_witness :
  ItineraryChain.estimateQuality
    {| title := {| bt_en := str "Wellington Tour"; bt_zh := [] |};
       summary := {| bt_en := str "Explore the capital"; bt_zh := [] |};
       destination := str "Wellington";
       startDate := str "2025-12-01";
       endDate := str "2025-12-03";
       days := [];
       totalCost := Some {| amount := num 800; currency := str "NZD" |};
       recommendations := [] |} = num 100.
Proof.
  apply estimateQuality_no_day. reflexivity.
Defined.

(** ** Counting and statistics *)

Lemma length_of_app {A} (l m : list A) :
  num_eq (length_of (l ++ m)) (num_add (length_of l) (length_of m)).
Proof.
  unfold length_of, num, num_add, num_eq.
  rewrite length_app, Nat2Z.inj_add, inject_Z_plus. reflexivity.
Qed.

Lemma countActivities_fold (ds : list ItineraryDay) (acc : number) :
  num_eq (fold_left (fun sum d => num_add sum (length_of (activities d))) ds acc)
         (num_add acc (length_of (flat_map activities ds))).
Proof.
  revert acc. induction ds as [|d ds IH]; intros acc.
  - simpl. destruct acc as [| | |x]; simpl; auto. unfold Qeq; simpl. lia.
  - simpl fold_left. rewrite IH. simpl flat_map.
    rewrite length_of_app. symmetry. apply num_add_assoc.
Qed.

(** X3.  [countActivities] is the number of activities of all days
    together, and post-processing leaves it unchanged. *)
Theorem countActivities_total (host : Host) (it : GeneratedItinerary) :
  num_eq (ItineraryChain.countActivities it)
         (length_of (flat_map activities (days it)))
  /\ ItineraryChain.countActivities (ItineraryChain.optimizeItinerary it)
     = ItineraryChain.countActivities it.
Proof.
  split.
  - unfold ItineraryChain.countActivities. rewrite countActivities_fold.
    apply num_add_0_l.
  - unfold ItineraryChain.countActivities. rewrite optimizeItinerary_days.
    generalize (num 0).
    induction (days it) as [|d ds IH]; intros acc; [reflexivity|].
    cbn [map fold_left].
    assert (E : length_of (activities (ItineraryChain.sortDay d))
                = length_of (activities d)).
    { unfold length_of. rewrite sortDay_activities.
      rewrite <- (Permutation_length (Array_sort_Permutation timeOfDay (activities d))).
      reflexivity. }
    rewrite E. apply IH.
Qed.

Lemma countActivities_finite (it : GeneratedItinerary) :
  exists c : Q, ItineraryChain.countActivities it = Fin c
                /\ (c == inject_Z (Z.of_nat (List.length (flat_map activities (days it)))))%Q.
Proof.
  pose proof (countActivities_fold (days it) (num 0)) as H.
  rewrite num_add_0_l in H. fold (ItineraryChain.countActivities it) in H.
  destruct (ItineraryChain.countActivities it) as [| | |c]; try contradiction.
  exists c. split; [reflexivity|exact H].
Qed.

(** X4.  With at least one day the statistics are well defined: the
    average number of activities per day is the integer nearest to
    activities / days (a tie going up), and the average daily budget is
    not NaN. *)
Theorem getStatistics_with_days (it : GeneratedItinerary) :
  days it <> [] ->
  (exists z : Z,
      avgActivitiesPerDay (ItineraryChain.getStatistics it) = num z
      /\ let n := inject_Z (Z.of_nat (List.length (flat_map activities (days it)))) in
         let d := inject_Z (Z.of_nat (List.length (days it))) in
         (n / d - (1 # 2) < inject_Z z)%Q /\ (inject_Z z <= n / d + (1 # 2))%Q)
  /\ avgDailyBudget (ItineraryChain.getStatistics it) <> NaN.
Proof.
  intros Hdays.
  assert (Hlen : exists p : positive, Z.of_nat (List.length (days it)) = Z.pos p).
  { destruct (days it) as [|d ds]; [contradiction|].
    exists (Pos.of_succ_nat (List.length ds)). simpl. reflexivity. }
  destruct Hlen as (p & Hlen).
  assert (E : length_of (days it) = num (Z.pos p))
    by (unfold length_of; now rewrite Hlen).
  unfold ItineraryChain.getStatistics. cbn [avgActivitiesPerDay avgDailyBudget].
  rewrite !E. split.
  - destruct (countActivities_finite it) as (c & -> & Hc).
    unfold num_div, num. change (Qsign (inject_Z (Z.pos p))) with Gt.
    destruct (Math_round_nearest (c / inject_Z (Z.pos p))) as (z & Hz & Hlo & Hhi).
    exists z. split; [exact Hz|]. cbv zeta. rewrite Hlen, <- Hc. split; assumption.
  - set (totalCost' := match totalCost it with
                       | Some c => if truthy_number (amount c) then amount c else num 0
                       | None => num 0
                       end).
    assert (Hcost : totalCost' <> NaN).
    { unfold totalCost'. destruct (totalCost it) as [c|]; [|discriminate].
      destruct (amount c) as [| | |x]; try discriminate.
      cbn [truthy_number]. destruct (negb _); discriminate. }
    destruct totalCost' as [| | |x]; [contradiction| | |];
      unfold num_div, num; change (Qsign (inject_Z (Z.pos p))) with Gt;
      discriminate.
Qed.

(** The itinerary of the test suite: three activities over two days. *)
Lemma getStatistics_with_days_witness :
  exists it,
    Example.validated
      (Example.itinerary
         [Example.day 1 "2025-12-01"
            [Example.activity "09:00" None; Example.activity "14:00" None];
          Example.day 2 "2025-12-02"
            [Example.activity "10:00" None]])
    = Some it
    /\ avgActivitiesPerDay (ItineraryChain.getStatistics it) = num 2
    /\ avgDailyBudget (ItineraryChain.getStatistics it) <> NaN.
Proof.
  eexists. split; [vm_compute; reflexivity|].
  split; [vm_compute; reflexivity|].
  apply getStatistics_with_days. discriminate.
Defined.

(** ** More on intent extraction *)

(** What the intent schema lets through: a confidence between 0 and 1 and
    nothing but the four keys of its shape. *)
Lemma intentSchema_sound (v : option json) (intent : IntentResult) :
  intentSchema v = Some intent ->
  num_leb (num 0) (confidence intent) = true
  /\ num_leb (confidence intent) (num 1) = true
  /\ detectedLanguage intent = None
  /\ metadata intent = None.
Proof.
  unfold intentSchema, Zod.object. destruct v as [[| | | | |o]|]; try discriminate.
  destruct (Zod.enum _ (get (str "type") o)) as [t|]; [|discriminate].
  unfold Zod.max, Zod.min.
  destruct (Zod.number (get (str "confidence") o)) as [c|]; [|discriminate].
  destruct (num_geb c (Fin 0)) eqn:Hlo; [|discriminate].
  destruct (num_leb c (Fin 1)) eqn:Hhi; [|discriminate].
  destruct (Zod.record_any _) as [p|]; [|discriminate].
  destruct (Zod.enum _ (get (str "locale") o)) as [l|]; [|discriminate].
  intros [= <-]. cbn [confidence detectedLanguage metadata].
  repeat split; assumption.
Qed.

(** X5.  When the model's JSON passes the intent schema, [extract] returns
    what the schema made of it (type, confidence, parameters and the
    locale the model gave), with [detectedLanguage] set to the locale the
    chain resolved and without metadata. *)
Theorem extract_returns_validated_intent (host : Host)
    (aiService : AiService.t) (templates : PromptTemplateService.t)
    (dto : ExtractIntentDto) (w w' : World) (response : json)
    (intent : IntentResult) :
  AiService.generateJSON aiService
    (IntentChain.composeMessages templates dto (IntentChain.resolveLocale dto))
    [] IntentChain.extract_options None w = (Return response, w') ->
  intentSchema (Some response) = Some intent ->
  IntentChain.extract aiService templates dto w
  = (Return {| type := type intent;
               confidence := confidence intent;
               locale := locale intent;
               parameters := parameters intent;
               detectedLanguage := Some (IntentChain.resolveLocale dto);
               metadata := None |},
     w').
Proof.
  intros Hcall Hvalid. rewrite extract_outcome, Hcall.
  unfold SchemaValidator.validate. rewrite Hvalid.
  destruct (intentSchema_sound _ Hvalid) as (_ & _ & _ & Hmeta).
  unfold IntentChain.set_detectedLanguage. rewrite Hmeta. reflexivity.
Qed.

(** The first scenario of the test suite, the locale left out. *)
Lemma extract_returns_validated_intent_witness :
  let dto := {| query := str "I want to visit Auckland for 3 days";
                query_locale := None; context := None |} in
  exists w',
    @IntentChain.extract Example.host
      (Mock.aiService (Return Mock.auckland_intent))
      Example.templates dto Example.initial
    = (Return {| type := CREATE_ITINERARY;
                 confidence := Fin (95 # 100);
                 locale := en;
                 parameters := [ (str "destination", JString (str "Auckland"));
                                 (str "duration", JNumber 3) ];
                 detectedLanguage := Some en;
                 metadata := None |}, w').
Proof.
  intros dto. eexists.
  apply (@extract_returns_validated_intent Example.host
           (Mock.aiService (Return Mock.auckland_intent))
           Example.templates dto Example.initial _ Mock.auckland_intent
           {| type := CREATE_ITINERARY;
              confidence := Fin (95 # 100);
              locale := en;
              parameters := [ (str "destination", JString (str "Auckland"));
                              (str "duration", JNumber 3) ];
              detectedLanguage := None;
              metadata := None |}).
  - vm_compute. reflexivity.
  - vm_compute. reflexivity.
Defined.

(** X6.  Every intent that [extract] returns has a confidence between 0
    and 1, and is either the fallback intent or an intent without metadata
    whose [detectedLanguage] is the resolved locale. *)
Theorem extract_result_invariant (host : Host)
    (aiService : AiService.t) (templates : PromptTemplateService.t)
    (dto : ExtractIntentDto) (w w' : World) (intent : IntentResult) :
  IntentChain.extract aiService templates dto w = (Return intent, w') ->
  num_leb (num 0) (confidence intent) = true
  /\ num_leb (confidence intent) (num 1) = true
  /\ (intent = fallback_intent (query dto) (IntentChain.resolveLocale dto)
      \/ (detectedLanguage intent = Some (IntentChain.resolveLocale dto)
          /\ metadata intent = None)).
Proof.
  rewrite extract_outcome.
  destruct (AiService.generateJSON _ _ _ _ _ w) as [[response|error] w1];
    [|discriminate].
  unfold SchemaValidator.validate.
  destruct (intentSchema (Some response)) as [validated|] eqn:Hschema.
  - destruct (intentSchema_sound _ Hschema) as (Hlo & Hhi & _ & Hmeta).
    intros [= <- _]. cbn [IntentChain.set_detectedLanguage confidence
                          detectedLanguage metadata].
    repeat split; try assumption. right. split; [reflexivity|assumption].
  - intros [= <- _]. repeat split; try reflexivity. left. reflexivity.
Qed.

Lemma extract_result_invariant_witness :
  exists intent,
    fst (@IntentChain.extract Example.host
           (Mock.aiService (Return Mock.auckland_intent))
           Example.templates
           {| query := str "I want to visit Auckland for 3 days";
              query_locale := None; context := None |} Example.initial)
    = Return intent
    /\ num_leb (num 0) (confidence intent) = true
    /\ num_leb (confidence intent) (num 1) = true.
Proof.
  eexists. split; [vm_compute; reflexivity|].
  match goal with
  | |- num_leb _ (confidence ?i) = _ /\ _ =>
      destruct (@extract_result_invariant Example.host
                  (Mock.aiService (Return Mock.auckland_intent))
                  Example.templates
                  {| query := str "I want to visit Auckland for 3 days";
                     query_locale := None; context := None |}
                  Example.initial
                  (snd (@IntentChain.extract Example.host
                          (Mock.aiService (Return Mock.auckland_intent))
                          Example.templates
                          {| query := str "I want to visit Auckland for 3 days";
                             query_locale := None; context := None |}
                          Example.initial))
                  i) as (Hlo & Hhi & _)
  end.
  - vm_compute. reflexivity.
  - split; assumption.
Defined.

(** With a provider registered as the default, [AiService.generateJSON]
    records the call and hands the messages to that provider with the
    default model filled in. *)
Lemma generateJSON_delegates (aiService : AiService.t)
    (messages : list ChatMessage) (options : PartialLLMOptions)
    (p : ILLMProvider) (w : World) :
  AiService.providers aiService (AiService.defaultProvider aiService) = Some p ->
  AiService.generateJSON aiService messages [] options None w
  = provider_generateJSON p messages []
      {| model := nullish (opt_model options) (AiService.defaultModel aiService);
         temperature := opt_temperature options;
         maxTokens := opt_maxTokens options;
         topP := None; frequencyPenalty := None; presencePenalty := None;
         stop := None; stream := None |}
      {| generateJSON_calls := generateJSON_calls w ++ [messages];
         anthropic_usage := anthropic_usage w;
         openai_usage := openai_usage w |}.
Proof.
  intros Hprovider.
  unfold AiService.generateJSON, AiService.getProvider, bind, modify.
  change (nullish None (AiService.defaultProvider aiService))
    with (AiService.defaultProvider aiService).
  rewrite Hprovider. reflexivity.
Qed.

Lemma intent_messages_end_with_query (templates : PromptTemplateService.t)
    (dto : ExtractIntentDto) (l : Locale) :
  exists front,
    IntentChain.composeMessages templates dto l
    = front ++ [AiService.createUserMessage (query dto)].
Proof.
  unfold IntentChain.composeMessages.
  eexists (_ ++ _). rewrite <- app_assoc. reflexivity.
Qed.

(** X7.  When a completion of OpenAI has no content (missing or empty),
    the provider parses "{}" in its place; the empty object fails the
    intent schema, so [extract] returns the fallback intent. *)
Theorem extract_on_empty_openai_content (host : Host) (remote : Remote)
    (aiService : AiService.t) (templates : PromptTemplateService.t)
    (dto : ExtractIntentDto) (response : ChatCompletion) (w : World) :
  AiService.providers aiService (AiService.defaultProvider aiService)
  = Some OpenAIProvider.provider ->
  (forall request, openai_chat_completions_create request = inr response) ->
  cc_first_content response = None \/ cc_first_content response = Some [] ->
  JSON_parse (str "{}") = inr (JObject []) ->
  exists w',
    IntentChain.extract aiService templates dto w
    = (Return {| type := GENERAL_QUERY;
                 confidence := Fin (1 # 2);
                 locale := IntentChain.resolveLocale dto;
                 parameters := [];
                 detectedLanguage := None;
                 metadata := Some [ (str "fallback", JBool true);
                                    (str "originalQuery", JString (query dto)) ] |},
       w').
Proof.
  intros Hprovider Hreply Hempty Hparse.
  destruct (intent_messages_end_with_query templates dto
              (IntentChain.resolveLocale dto)) as (front & Hshape).
  rewrite extract_outcome.
  rewrite (generateJSON_delegates _ _ _ _ Hprovider).
  rewrite Hshape. cbn [provider_generateJSON OpenAIProvider.provider].
  unfold OpenAIProvider.generateJSON, try_catch.
  rewrite map_app. cbn [map]. rewrite append_to_last_snoc, Hreply.
  assert (Hcontent :
            match cc_first_content response with
            | Some c => if truthy_string c then c else str "{}"
            | None => str "{}"
            end = str "{}") by (destruct Hempty as [-> | ->]; reflexivity).
  rewrite Hcontent.
  unfold bind, OpenAIProvider.trackUsage, modify. rewrite Hparse.
  unfold ret. eexists. reflexivity.
Qed.

(** Only the OpenAI key is configured and the completion carries no
    content. *)
Lemma extract_on_empty_openai_content_witness :
  let dto := {| query := str "Hello!"; query_locale := None; context := None |} in
  exists w',
    @IntentChain.extract Example.host (OpenAIOnly.aiService OpenAIOnly.silent)
      Example.templates dto Example.initial
    = (Return (fallback_intent (str "Hello!") en), w').
Proof.
  intros dto.
  apply (@extract_on_empty_openai_content Example.host OpenAIOnly.silent
           (OpenAIOnly.aiService OpenAIOnly.silent) Example.templates dto
           {| cc_first_content := None;
              cc_model := str "gpt-4o-mini";
              cc_prompt_tokens := Some (num 120);
              cc_completion_tokens := Some (num 0) |}
           Example.initial).
  - reflexivity.
  - intros request. reflexivity.
  - left. reflexivity.
  - reflexivity.
Defined.

(** ** More on itinerary generation *)

(** X8.  When the model's JSON does not pass the itinerary schema,
    [generate] throws "Invalid itinerary response: " followed by the
    validator's error list, and returns no itinerary. *)
Theorem generate_raises_on_invalid_response (host : Host)
    (aiService : AiService.t) (templates : PromptTemplateService.t)
    (dto : GenerateItineraryDto) (w w' : World) (response : json) :
  num_geb (Date_getTime (req_startDate dto)) (Date_getTime (req_endDate dto)) = false ->
  AiService.generateJSON aiService
    (ItineraryChain.composeMessages templates dto (nullish (req_locale dto) en))
    [] ItineraryChain.generate_options None w = (Return response, w') ->
  itinerarySchema (Some response) = None ->
  exists errors,
    SchemaValidator.validate response itinerarySchema = Invalid errors
    /\ ItineraryChain.generate aiService templates dto w
       = (Throw {| message := str "Invalid itinerary response: "
                              ++ JSON_stringify errors |}, w').
Proof.
  intros Hdates Hcall Hschema.
  rewrite (generate_outcome _ _ _ _ _ Hdates), Hcall.
  unfold SchemaValidator.validate. rewrite Hschema.
  eexists. split; reflexivity.
Qed.

(** The model answers with an object that has none of the required keys. *)
Lemma generate_raises_on_invalid_response_witness :
  let dto := {| req_destination := str "Auckland";
                req_startDate := str "2025-12-01";
                req_endDate := str "2025-12-03";
                req_days := num 3;
                travelers := None; preferences := None;
                req_locale := Some en; specificRequests := None |} in
  fst (@ItineraryChain.generate Example.host (Mock.aiService (Return (JObject [])))
         Example.templates dto Example.initial)
  = Throw {| message := str "Invalid itinerary response: "
                        ++ Example.JSON_stringify
                             [{| path := []; issue_message := str "Invalid input" |}] |}.
Proof.
  intros dto.
  destruct (@generate_raises_on_invalid_response Example.host
              (Mock.aiService (Return (JObject []))) Example.templates dto
              Example.initial
              (snd (@ItineraryChain.generate Example.host
                      (Mock.aiService (Return (JObject [])))
                      Example.templates dto Example.initial))
              (JObject []))
    as (errors & Herrors & Hrun).
  - vm_compute. reflexivity.
  - vm_compute. reflexivity.
  - reflexivity.
  - rewrite Hrun. injection Herrors as <-. reflexivity.
Defined.

(** X9.  When the dates are accepted and the model's JSON passes the
    itinerary schema, [generate] returns the post-processed itinerary; it
    always carries a [totalCost] and has as many days as the model gave. *)
Theorem generate_returns_costed_itinerary (host : Host)
    (aiService : AiService.t) (templates : PromptTemplateService.t)
    (dto : GenerateItineraryDto) (w w' : World) (response : json)
    (data : GeneratedItinerary) :
  num_geb (Date_getTime (req_startDate dto)) (Date_getTime (req_endDate dto)) = false ->
  AiService.generateJSON aiService
    (ItineraryChain.composeMessages templates dto (nullish (req_locale dto) en))
    [] ItineraryChain.generate_options None w = (Return response, w') ->
  itinerarySchema (Some response) = Some data ->
  ItineraryChain.generate aiService templates dto w
  = (Return (ItineraryChain.optimizeItinerary data), w')
  /\ (exists c, totalCost (ItineraryChain.optimizeItinerary data) = Some c)
  /\ List.length (days (ItineraryChain.optimizeItinerary data))
     = List.length (days data).
Proof.
  intros Hdates Hcall Hschema. split; [|split].
  - rewrite (generate_outcome _ _ _ _ _ Hdates), Hcall.
    unfold SchemaValidator.validate. rewrite Hschema. reflexivity.
  - destruct (totalCost data) as [c|] eqn:Hcost.
    + exists c. now apply optimizeItinerary_totalCost_present.
    + eexists. now apply optimizeItinerary_totalCost_absent.
  - rewrite optimizeItinerary_days. apply length_map.
Qed.

Lemma generate_returns_costed_itinerary_witness :
  let dto := {| req_destination := str "Auckland";
                req_startDate := str "2025-12-01";
                req_endDate := str "2025-12-03";
                req_days := num 3;
                travelers := Some (num 2); preferences := None;
                req_locale := Some zh; specificRequests := None |} in
  let payload :=
    Example.itinerary
      [Example.day 1 "2025-12-01"
         [Example.activity "14:00" (Some (324 # 10, "NZD"%string));
          Example.activity "09:00" None]] in
  exists it w',
    @ItineraryChain.generate Example.host (Mock.aiService (Return payload))
      Example.templates dto Example.initial = (Return it, w')
    /\ exists c, totalCost it = Some c.
Proof.
  intros dto payload.
  assert (Hvalid : exists data, itinerarySchema (Some payload) = Some data)
    by (eexists; vm_compute; reflexivity).
  destruct Hvalid as (data & Hvalid).
  destruct (@generate_returns_costed_itinerary Example.host
              (Mock.aiService (Return payload)) Example.templates dto
              Example.initial
              (snd (AiService.generateJSON (Mock.aiService (Return payload))
                      (@ItineraryChain.composeMessages Example.host
                         Example.templates dto zh)
                      [] ItineraryChain.generate_options None Example.initial))
              payload data)
    as (Hrun & Hcost & _).
  - vm_compute. reflexivity.
  - reflexivity.
  - exact Hvalid.
  - eexists. eexists. split; [exact Hrun|exact Hcost].
Defined.

(** X10.  When the default provider is not registered, both chains throw
    "Provider <tag> not registered" ([generate] once the dates are
    accepted); the call of [generateJSON] has been made and nothing else
    has changed. *)
Theorem chains_without_provider (host : Host)
    (aiService : AiService.t) (templates : PromptTemplateService.t) (w : World) :
  AiService.providers aiService (AiService.defaultProvider aiService) = None ->
  let error :=
    {| message := str "Provider "
                  ++ AiService.provider_tag (AiService.defaultProvider aiService)
                  ++ str " not registered" |} in
  let after messages :=
    {| generateJSON_calls := generateJSON_calls w ++ [messages];
       anthropic_usage := anthropic_usage w;
       openai_usage := openai_usage w |} in
  (forall dto : ExtractIntentDto,
      IntentChain.extract aiService templates dto w
      = (Throw error,
         after (IntentChain.composeMessages templates dto
                  (IntentChain.resolveLocale dto))))
  /\ (forall dto : GenerateItineraryDto,
        num_geb (Date_getTime (req_startDate dto))
                (Date_getTime (req_endDate dto)) = false ->
        ItineraryChain.generate aiService templates dto w
        = (Throw error,
           after (ItineraryChain.composeMessages templates dto
                    (nullish (req_locale dto) en)))).
Proof.
  intros Hnone error after.
  assert (Hcall : forall messages options,
            AiService.generateJSON aiService messages [] options None w
            = (Throw error, after messages)).
  { intros messages options.
    unfold AiService.generateJSON, AiService.getProvider, bind, modify.
    change (nullish None (AiService.defaultProvider aiService))
      with (AiService.defaultProvider aiService).
    rewrite Hnone. reflexivity. }
  split.
  - intros dto. rewrite extract_outcome, Hcall. reflexivity.
  - intros dto Hdates. rewrite (generate_outcome _ _ _ _ _ Hdates), Hcall.
    reflexivity.
Qed.

(** Only the OpenAI key is configured, while the default provider asked
    for is the local one. *)
Lemma chains_without_provider_witness :
  let service :=
    {| AiService.providers :=
         AiService.providers (OpenAIOnly.aiService OpenAIOnly.silent);
       AiService.defaultProvider := LOCAL;
       AiService.defaultModel := str "mistral-7b" |} in
  fst (@IntentChain.extract Example.host service Example.templates
         {| query := str "Hello!"; query_locale := None; context := None |}
         Example.initial)
  = Throw {| message := str "Provider local not registered" |}.
Proof.
  intros service.
  rewrite (proj1 (@chains_without_provider Example.host service Example.templates
                    Example.initial eq_refl)).
  reflexivity.
Defined.

Lemma AnthropicProvider_keeps_log (host : Host) (remote : Remote)
    (messages : list ChatMessage) (schema : jsobject) (options : LLMOptions)
    (w : World) :
  generateJSON_calls (snd (AnthropicProvider.generateJSON messages schema options w))
  = generateJSON_calls w.
Proof.
  unfold AnthropicProvider.generateJSON, try_catch.
  destruct (append_to_last _ messages) as [modified|]; [|reflexivity].
  destruct (AnthropicProvider.convertMessages modified) as [system anthropicMessages].
  destruct (anthropic_messages_create _) as [rejection|response]; [reflexivity|].
  unfold bind, AnthropicProvider.trackUsage, modify.
  destruct (JSON_parse _); reflexivity.
Qed.

Lemma OpenAIProvider_keeps_log (host : Host) (remote : Remote)
    (messages : list ChatMessage) (schema : jsobject) (options : LLMOptions)
    (w : World) :
  generateJSON_calls (snd (OpenAIProvider.generateJSON messages schema options w))
  = generateJSON_calls w.
Proof.
  unfold OpenAIProvider.generateJSON, try_catch.
  destruct (append_to_last _ _) as [modified|]; [|reflexivity].
  destruct (openai_chat_completions_create _) as [rejection|response]; [reflexivity|].
  unfold bind, OpenAIProvider.trackUsage, modify.
  destruct (JSON_parse _); reflexivity.
Qed.

(** X11.  Once the dates are accepted, [generate] calls [generateJSON]
    exactly once, whatever the provider answers: there is no retry, and a
    response that fails validation costs no second call.  The call carries
    three messages: a system message with the template "system", a system
    message with the template "itinerary" and a user message with the
    context message, all three in the locale of the request, English when
    it has none.  For a request in English that has only the required
    fields the context message is the two lines "Create a N-day itinerary
    for D." and "Travel dates: S to E". *)
Theorem generate_calls_once (host : Host) (remote : Remote)
    (aiService : AiService.t) (templates : PromptTemplateService.t)
    (dto : GenerateItineraryDto) (w : World) :
  num_geb (Date_getTime (req_startDate dto)) (Date_getTime (req_endDate dto)) = false ->
  (forall p, AiService.providers aiService (AiService.defaultProvider aiService)
             = Some p ->
             p = AnthropicProvider.provider \/ p = OpenAIProvider.provider) ->
  let locale := match req_locale dto with Some l => l | None => en end in
  generateJSON_calls (snd (ItineraryChain.generate aiService templates dto w))
  = generateJSON_calls w
    ++ [[ {| role := SYSTEM;
             content := PromptTemplateService.getTemplate templates (str "system")
                                                          locale;
             msg_name := None |};
          {| role := SYSTEM;
             content := PromptTemplateService.getTemplate templates
                                                          (str "itinerary") locale;
             msg_name := None |};
          {| role := USER;
             content := ItineraryChain.buildContextMessage dto locale;
             msg_name := None |} ]]
  /\ (travelers dto = None -> preferences dto = None ->
      specificRequests dto = None ->
      ItineraryChain.buildContextMessage dto en
      = str "Create a " ++ String_of_number (req_days dto)
        ++ str "-day itinerary for " ++ req_destination dto ++ str "."
        ++ [newline]
        ++ str "Travel dates: " ++ req_startDate dto ++ str " to "
        ++ req_endDate dto).
Proof.
  intros Hdates Hproviders locale.
  set (messages := ItineraryChain.composeMessages templates dto
                     (nullish (req_locale dto) en)).
  assert (Hlog : generateJSON_calls
                   (snd (AiService.generateJSON aiService messages []
                           ItineraryChain.generate_options None w))
                 = generateJSON_calls w ++ [messages]).
  { destruct (AiService.providers aiService (AiService.defaultProvider aiService))
      as [p|] eqn:Hp.
    - rewrite (generateJSON_delegates _ _ _ _ Hp).
      destruct (Hproviders p eq_refl) as [-> | ->];
        cbn [provider_generateJSON AnthropicProvider.provider OpenAIProvider.provider].
      + now rewrite AnthropicProvider_keeps_log.
      + now rewrite OpenAIProvider_keeps_log.
    - unfold AiService.generateJSON, AiService.getProvider, bind, modify.
      change (nullish None (AiService.defaultProvider aiService))
        with (AiService.defaultProvider aiService).
      rewrite Hp. reflexivity. }
  split.
  - rewrite (generate_outcome _ _ _ _ _ Hdates). fold messages.
    change (generateJSON_calls w ++ [_]) with (generateJSON_calls w ++ [messages]).
    destruct (AiService.generateJSON aiService messages [] _ None w)
      as [[response|error] w1]; cbn [snd] in *.
    + destruct (SchemaValidator.validate response itinerarySchema); exact Hlog.
    + exact Hlog.
  - intros Htravelers Hpreferences Hrequests.
    unfold ItineraryChain.buildContextMessage.
    rewrite Htravelers, Hpreferences, Hrequests.
    cbn [ItineraryChain.optional_line app join].
    rewrite <- !app_assoc. reflexivity.
Qed.

(** The backend answers [{}], which fails validation; no prompt file is
    loaded, so the two system messages are the fallback templates. *)
Lemma generate_calls_once_witness :
  let dto := {| req_destination := str "Auckland";
                req_startDate := str "2025-12-01";
                req_endDate := str "2025-12-03";
                req_days := num 3;
                travelers := None; preferences := None;
                req_locale := None; specificRequests := None |} in
  generateJSON_calls
    (snd (@ItineraryChain.generate Example.host
            (Example.aiService (Example.replying (str "{}")))
            Example.templates dto Example.initial))
  = [[ {| role := SYSTEM;
          content := str "You are a helpful AI assistant for SmartNZ Travel Planner.";
          msg_name := None |};
       {| role := SYSTEM;
          content :=
            str "Create a detailed travel itinerary based on the given parameters.";
          msg_name := None |};
       {| role := USER;
          content := str "Create a 3-day itinerary for Auckland."
                     ++ [newline]
                     ++ str "Travel dates: 2025-12-01 to 2025-12-03";
          msg_name := None |} ]].
Proof.
  intros dto.
  rewrite (proj1 (@generate_calls_once Example.host (Example.replying (str "{}"))
                    (Example.aiService (Example.replying (str "{}")))
                    Example.templates dto Example.initial
                    eq_refl
                    (fun p Hp => or_introl
                       (eq_sym (f_equal (fun o => match o with
                                                  | Some q => q
                                                  | None => p
                                                  end) Hp))))).
  vm_compute. reflexivity.
Defined.

(** ** The provider layer *)

(** X12.  The Anthropic provider counts a call as soon as the backend has
    answered, before the text is parsed: one more request and the tokens
    of the response, whether or not the text turns out to be JSON, and
    nothing on the statistics of the other provider.  A request that the
    backend rejects changes nothing. *)
Theorem AnthropicProvider_usage (host : Host) (remote : Remote)
    (messages : list ChatMessage) (last : ChatMessage) (schema : jsobject)
    (options : LLMOptions) (w : World) :
  let w' := snd (AnthropicProvider.generateJSON (messages ++ [last]) schema options w) in
  (forall response : AnthropicMessage,
      (forall request, anthropic_messages_create request = inr response) ->
      usage_requestCount (anthropic_usage w')
      = num_add (usage_requestCount (anthropic_usage w)) (num 1)
      /\ usage_promptTokens (anthropic_usage w')
         = num_add (usage_promptTokens (anthropic_usage w)) (am_input_tokens response)
      /\ usage_completionTokens (anthropic_usage w')
         = num_add (usage_completionTokens (anthropic_usage w))
                   (am_output_tokens response)
      /\ usage_totalTokens (anthropic_usage w')
         = num_add (usage_totalTokens (anthropic_usage w))
                   (num_add (am_input_tokens response) (am_output_tokens response))
      /\ openai_usage w' = openai_usage w)
  /\ (forall rejection : Error,
        (forall request, anthropic_messages_create request = inl rejection) ->
        w' = w).
Proof.
  intros w'. split.
  - intros response Hreply. subst w'.
    unfold AnthropicProvider.generateJSON, try_catch.
    rewrite append_to_last_snoc.
    destruct (AnthropicProvider.convertMessages _) as [system anthropicMessages].
    rewrite Hreply. unfold bind, AnthropicProvider.trackUsage, modify.
    destruct (JSON_parse _); repeat split; reflexivity.
  - intros rejection Hreply. subst w'.
    now rewrite (@AnthropicProvider_rejected host remote messages last schema options
                   rejection w Hreply).
Qed.

Lemma num_add_shuffle (a b c d : number) :
  num_eq (num_add (num_add a b) (num_add c d))
         (num_add (num_add a c) (num_add b d)).
Proof.
  rewrite <- (num_add_assoc a b (num_add c d)).
  rewrite (num_add_assoc b c d), (num_add_comm b c).
  rewrite <- (num_add_assoc c b d).
  apply num_add_assoc.
Qed.

(** X13.  The usage statistics stay consistent: the total of the tokens is
    the sum of the prompt and completion tokens at the start, and
    [trackUsage] keeps it so. *)
Theorem trackUsage_keeps_consistency :
  usage_consistent BaseLLMProvider.initialUsage
  /\ forall (cost promptTokens completionTokens : number) (stats : UsageStats),
       usage_consistent stats ->
       usage_consistent
         (BaseLLMProvider.trackUsage cost promptTokens completionTokens stats).
Proof.
  split.
  - unfold usage_consistent. simpl. reflexivity.
  - intros cost p c stats Hstats. unfold usage_consistent in *.
    cbn [BaseLLMProvider.trackUsage usage_totalTokens usage_promptTokens
         usage_completionTokens].
    rewrite Hstats. apply num_add_shuffle.
Qed.

(** ** Messages for the Anthropic API *)

Lemma convertMessages_loop_messages (ms : list ChatMessage)
    (system : option jsstring) (acc : list (MessageRole * jsstring)) :
  snd (AnthropicProvider.convertMessages_loop ms system acc)
  = acc ++ map (fun m => (role m, content m)) (filter conversational ms).
Proof.
  revert system acc. induction ms as [|m ms IH]; intros system acc.
  - simpl. now rewrite app_nil_r.
  - simpl. unfold conversational at 1.
    destruct (role m) eqn:Hrole; rewrite IH.
    + reflexivity.
    + rewrite <- app_assoc. cbn [map app]. now rewrite Hrole.
    + rewrite <- app_assoc. cbn [map app]. now rewrite Hrole.
    + reflexivity.
Qed.

Lemma join_absorb (sep a b : jsstring) (rest : list jsstring) :
  join sep ((a ++ sep ++ b) :: rest) = a ++ sep ++ join sep (b :: rest).
Proof.
  destruct rest as [|c rest]; [reflexivity|].
  cbn [join]. now rewrite <- !app_assoc.
Qed.

Lemma convertMessages_loop_system (ms : list ChatMessage) (s : jsstring)
    (acc : list (MessageRole * jsstring)) :
  s <> [] ->
  Forall (fun m => content m <> []) (filter is_system ms) ->
  fst (AnthropicProvider.convertMessages_loop ms (Some s) acc)
  = Some (join [newline; newline] (s :: map content (filter is_system ms))).
Proof.
  revert s acc. induction ms as [|m ms IH]; intros s acc Hs Hall; [reflexivity|].
  cbn [AnthropicProvider.convertMessages_loop filter] in *.
  unfold is_system in Hall at 1. unfold is_system at 1.
  destruct (role m) eqn:Hrole; try (now apply IH).
  inversion Hall as [|? ? Hm Hrest]; subst.
  destruct s as [|c s']; [contradiction|]. cbn [truthy_string].
  rewrite IH; [|discriminate|exact Hrest].
  cbn [map]. f_equal.
  change (c :: s' ++ [newline; newline] ++ content m)
    with ((c :: s') ++ [newline; newline] ++ content m).
  rewrite join_absorb.
  destruct (map content (filter is_system ms)); reflexivity.
Qed.

Lemma convertMessages_loop_no_system (ms : list ChatMessage)
    (acc : list (MessageRole * jsstring)) :
  Forall (fun m => content m <> []) (filter is_system ms) ->
  fst (AnthropicProvider.convertMessages_loop ms None acc)
  = match map content (filter is_system ms) with
    | [] => None
    | contents => Some (join [newline; newline] contents)
    end.
Proof.
  revert acc. induction ms as [|m ms IH]; intros acc Hall; [reflexivity|].
  cbn [AnthropicProvider.convertMessages_loop filter] in *.
  unfold is_system in Hall at 1. unfold is_system at 1.
  destruct (role m) eqn:Hrole; try (now apply IH).
  inversion Hall as [|? ? Hm Hrest]; subst.
  rewrite convertMessages_loop_system by assumption. reflexivity.
Qed.

(** X14.  [convertMessages] keeps the user and assistant messages, in
    their order and with their content, and drops every other message from
    the list; when no system message is empty, the preamble is their
    contents in order, separated by blank lines, and there is no preamble
    when there is no system message. *)
Theorem convertMessages_spec (messages : list ChatMessage) :
  snd (AnthropicProvider.convertMessages messages)
  = map (fun m => (role m, content m)) (filter conversational messages)
  /\ (Forall (fun m => content m <> []) (filter is_system messages) ->
      fst (AnthropicProvider.convertMessages messages)
      = match map content (filter is_system messages) with
        | [] => None
        | contents => Some (join [newline; newline] contents)
        end).
Proof.
  unfold AnthropicProvider.convertMessages. split.
  - apply convertMessages_loop_messages.
  - apply convertMessages_loop_no_system.
Qed.

(** ** The itinerary schema *)

(** X15.  The itinerary schema rejects every payload that lacks one of
    title, summary, destination, startDate, endDate, days and
    recommendations, whatever else it holds. *)
Theorem itinerarySchema_required_keys (key : jsstring) (payload : jsobject) :
  In key required_itinerary_keys ->
  get key payload = None ->
  itinerarySchema (Some (JObject payload)) = None.
Proof.
  intros Hkey Hmissing.
  unfold itinerarySchema, Zod.object.
  unfold required_itinerary_keys in Hkey. cbn [In] in Hkey.
  repeat (destruct Hkey as [<-|Hkey]; [rewrite Hmissing; cbn;
            repeat match goal with
                   | |- context [match ?x with Some _ => _ | None => None end] =>
                       destruct x
                   end; reflexivity|]).
  contradiction.
Qed.

(** The payload of the test suite, which has a title and nothing else. *)
Lemma itinerarySchema_required_keys_witness :
  itinerarySchema
    (Some (JObject [(str "title", JString (str "Missing required fields"))]))
  = None.
Proof.
  apply (itinerarySchema_required_keys (key := str "days")).
  - unfold required_itinerary_keys. cbn [In]. do 5 right. left. reflexivity.
  - reflexivity.
Defined.

(** ** Edge cases of the time parser *)

(** X16.  How [parseTime] reads times that are not "HH:MM": a time without
    colon is taken as hours, with 0 minutes; a third part (seconds) is
    ignored; and a minute part that is not a number counts as 0 instead of
    making the time NaN. *)
Theorem parseTime_edges (host : Host) :
  (forall s : jsstring,
      ~ In colon s ->
      ItineraryChain.parseTime s = num_add (num_mul (Number_of s) (num 60)) (num 0))
  /\ (forall hh mm rest : jsstring,
        ~ In colon hh -> ~ In colon mm ->
        ItineraryChain.parseTime (hh ++ colon :: mm ++ colon :: rest)
        = ItineraryChain.parseTime (hh ++ colon :: mm))
  /\ (forall hh mm : jsstring,
        ~ In colon hh -> ~ In colon mm -> Number_of mm = NaN ->
        ItineraryChain.parseTime (hh ++ colon :: mm)
        = num_add (num_mul (Number_of hh) (num 60)) (num 0)).
Proof.
  repeat split.
  - intros s Hs. unfold ItineraryChain.parseTime.
    rewrite split_without_separator by assumption. reflexivity.
  - intros hh mm rest Hhh Hmm. unfold ItineraryChain.parseTime.
    rewrite (@split_at_separator colon hh (mm ++ colon :: rest) Hhh).
    rewrite (@split_at_separator colon mm rest Hmm).
    rewrite (@split_at_separator colon hh mm Hhh).
    rewrite (@split_without_separator colon mm Hmm). reflexivity.
  - intros hh mm Hhh Hmm Hnan. unfold ItineraryChain.parseTime.
    rewrite split_at_separator, split_without_separator by assumption.
    cbn [map nth nth_error]. rewrite Hnan. reflexivity.
Qed.

(** ** Post-processing twice *)

Lemma num_leb_not_gt (a b : number) : num_leb a b = true -> num_ltb b a = false.
Proof.
  destruct a as [| | |x], b as [| | |y]; try reflexivity;
    try (unfold num_leb; simpl; congruence).
  intros H. apply num_leb_Fin in H.
  destruct (num_ltb (Fin y) (Fin x)) eqn:E; [|reflexivity].
  apply num_ltb_Fin in E. exfalso. apply (Qlt_not_le _ _ E H).
Qed.

(** Sorting a list that is in order changes nothing. *)
Lemma Array_sort_of_sorted {A} (key : A -> number) (l : list A) :
  StronglySorted (key_le key) l -> Array_sort (compare_keys key) l = l.
Proof.
  induction 1 as [|x l Hs IH Hx]; [reflexivity|].
  simpl Array_sort. rewrite IH.
  destruct l as [|y l']; [reflexivity|].
  simpl. rewrite sorts_after_key.
  inversion Hx as [|? ? Hxy _]; subst.
  now rewrite (num_leb_not_gt _ _ Hxy).
Qed.

(** X17.  Post-processing is idempotent when every time parses to a
    number: a second pass returns the itinerary of the first. *)
Theorem optimizeItinerary_idempotent (host : Host) (it : GeneratedItinerary) :
  (forall d a, In d (days it) -> In a (activities d) -> timeOfDay a <> NaN) ->
  ItineraryChain.optimizeItinerary (ItineraryChain.optimizeItinerary it)
  = ItineraryChain.optimizeItinerary it.
Proof.
  intros Hparse.
  assert (Hdays : map ItineraryChain.sortDay (map ItineraryChain.sortDay (days it))
                  = map ItineraryChain.sortDay (days it)).
  { rewrite map_map. apply map_ext_in. intros d Hd.
    assert (E : Array_sort (compare_keys timeOfDay)
                  (activities (ItineraryChain.sortDay d))
                = activities (ItineraryChain.sortDay d)).
    { apply Array_sort_of_sorted. rewrite sortDay_activities.
      apply Array_sort_sorted. apply Forall_forall. intros a Ha.
      now apply (Hparse d a). }
    unfold ItineraryChain.sortDay at 1.
    change (Array_sort ItineraryChain.compareByTime)
      with (Array_sort (compare_keys timeOfDay)).
    rewrite E. reflexivity. }
  unfold ItineraryChain.optimizeItinerary.
  cbn [totalCost title summary destination startDate endDate days recommendations].
  destruct (totalCost it) as [c|] eqn:Hcost;
    cbn [totalCost title summary destination startDate endDate days
         recommendations];
    rewrite ?Hcost, Hdays; reflexivity.
Qed.

Lemma optimizeItinerary_idempotent_witness :
  exists it,
    Example.validated
      (Example.itinerary
         [Example.day 1 "2025-12-01"
            [Example.activity "14:00" None;
             Example.activity "09:00" (Some (32 # 1, "NZD"%string));
             Example.activity "09:00" None]])
    = Some it
    /\ @ItineraryChain.optimizeItinerary Example.host
         (@ItineraryChain.optimizeItinerary Example.host it)
       = @ItineraryChain.optimizeItinerary Example.host it.
Proof.
  eexists. split; [vm_compute; reflexivity|].
  apply (optimizeItinerary_idempotent Example.host).
  intros d a [<-|[]] Ha. cbn [activities] in Ha.
  destruct Ha as [<-|[<-|[<-|[]]]]; vm_compute; discriminate.
Defined.
